(** * The Pomodoro timer engine ([lib/timer.ts]) as a state machine

    [createPomodoroTimer] returns a closure over seven mutable variables and
    a set of methods that update them.  The closure's variables become the
    record [Engine]; every method becomes a function from the engine before
    the call to the engine after it.  [Date.now()] is the only input to the
    engine besides the arguments of its methods, so a method reading the
    wall clock takes the reading as an explicit argument [clock].

    The source's [number]s hold whole seconds, millisecond timestamps and
    session counts.  They are modelled by [Z]: [Math.floor (x / 1000)] is
    [x / 1000] (the division of [Z] rounds down for a positive divisor),
    [Math.max] is [Z.max] and [%] is [Z.rem] (the sign follows the
    dividend, as in JavaScript). *)

From Stdlib Require Import ZArith Lia Bool List Ascii DecimalString.
From stdpp Require Import gmap strings.
Import ListNotations.

Local Open Scope Z_scope.

(** ** Data model ([lib/types.ts]) *)

Inductive PomodoroMode : Type :=
  | focus
  | short_break
  | long_break.

Definition mode_eqb (a b : PomodoroMode) : bool :=
  match a, b with
  | focus, focus | short_break, short_break | long_break, long_break => true
  | _, _ => false
  end.

(** [TimerSettings.durations]: the three keys are required by the type. *)
Record Durations : Type := mkDurations {
  dur_focus : Z;
  dur_short_break : Z;
  dur_long_break : Z
}.

(** [durations[mode]] *)
Definition duration_of (d : Durations) (m : PomodoroMode) : Z :=
  match m with
  | focus => dur_focus d
  | short_break => dur_short_break d
  | long_break => dur_long_break d
  end.

Record TimerSettings : Type := mkSettings {
  durations : Durations;
  autoAdvance : bool;
  longBreakInterval : Z;
  soundEnabled : bool;
  notificationsEnabled : bool
}.

(** The variables captured by the closure of [createPomodoroTimer].
    [sessionStartTime] is [number | null]. *)
Record Engine : Type := mkEngine {
  settings : TimerSettings;
  currentMode : PomodoroMode;
  remaining : Z;
  isRunning : bool;
  sessionStartTime : option Z;
  remainingAtStart : Z;
  completedFocusSessions : Z
}.

(** Assignments to one variable of the closure. *)
Definition set_settings (v : TimerSettings) (e : Engine) : Engine :=
  mkEngine v (currentMode e) (remaining e) (isRunning e)
           (sessionStartTime e) (remainingAtStart e) (completedFocusSessions e).

Definition set_currentMode (v : PomodoroMode) (e : Engine) : Engine :=
  mkEngine (settings e) v (remaining e) (isRunning e)
           (sessionStartTime e) (remainingAtStart e) (completedFocusSessions e).

Definition set_remaining (v : Z) (e : Engine) : Engine :=
  mkEngine (settings e) (currentMode e) v (isRunning e)
           (sessionStartTime e) (remainingAtStart e) (completedFocusSessions e).

Definition set_isRunning (v : bool) (e : Engine) : Engine :=
  mkEngine (settings e) (currentMode e) (remaining e) v
           (sessionStartTime e) (remainingAtStart e) (completedFocusSessions e).

Definition set_sessionStartTime (v : option Z) (e : Engine) : Engine :=
  mkEngine (settings e) (currentMode e) (remaining e) (isRunning e)
           v (remainingAtStart e) (completedFocusSessions e).

Definition set_remainingAtStart (v : Z) (e : Engine) : Engine :=
  mkEngine (settings e) (currentMode e) (remaining e) (isRunning e)
           (sessionStartTime e) v (completedFocusSessions e).

Definition set_completedFocusSessions (v : Z) (e : Engine) : Engine :=
  mkEngine (settings e) (currentMode e) (remaining e) (isRunning e)
           (sessionStartTime e) (remainingAtStart e) v.

(** The observable part of the engine: the getters of [state]. *)
Record PomodoroState : Type := mkState {
  st_mode : PomodoroMode;
  st_remaining : Z;
  st_isRunning : bool;
  st_completedFocusSessions : Z
}.

Definition state (e : Engine) : PomodoroState :=
  mkState (currentMode e) (remaining e) (isRunning e) (completedFocusSessions e).

(** ** The engine ([createPomodoroTimer]) *)

Definition createPomodoroTimer (initialSettings : TimerSettings) : Engine :=
  let remaining0 := duration_of (durations initialSettings) focus in
  mkEngine initialSettings focus remaining0 false None remaining0 0.

Definition start (clock : Z) (e : Engine) : Engine :=
  if isRunning e then e
  else
    let e := set_isRunning true e in
    let e := set_sessionStartTime (Some clock) e in
    set_remainingAtStart (remaining e) e.

Definition pause (clock : Z) (e : Engine) : Engine :=
  if negb (isRunning e) then e
  else
    let e :=
      match sessionStartTime e with
      | Some t0 =>
          let elapsed := (clock - t0) / 1000 in
          set_remaining (Z.max 0 (remainingAtStart e - elapsed)) e
      | None => e
      end in
    let e := set_isRunning false e in
    set_sessionStartTime None e.

(** [reset(mode = currentMode)]: [None] is the call without an argument. *)
Definition reset (mode : option PomodoroMode) (e : Engine) : Engine :=
  let mode := default (currentMode e) mode in
  let e := set_isRunning false e in
  let e := set_currentMode mode e in
  let e := set_remaining (duration_of (durations (settings e)) (currentMode e)) e in
  let e := set_remainingAtStart (remaining e) e in
  set_sessionStartTime None e.

Definition switchMode (mode : PomodoroMode) (e : Engine) : Engine :=
  let e := set_currentMode mode e in
  let e := set_remaining (duration_of (durations (settings e)) (currentMode e)) e in
  let e := set_remainingAtStart (remaining e) e in
  let e := set_isRunning false e in
  set_sessionStartTime None e.

(** [updateSettings(newSettings: TimerSettings)].  The argument has every
    key of [TimerSettings], so the spread
    [{ ...settings, ...newSettings, durations: { ...newSettings.durations } }]
    takes every field from [newSettings]; the duration map is a copy of
    that of [newSettings]. *)
Definition updateSettings (newSettings : TimerSettings) (e : Engine) : Engine :=
  let merged :=
    mkSettings
      (mkDurations (dur_focus (durations newSettings))
                   (dur_short_break (durations newSettings))
                   (dur_long_break (durations newSettings)))
      (autoAdvance newSettings)
      (longBreakInterval newSettings)
      (soundEnabled newSettings)
      (notificationsEnabled newSettings) in
  let e := set_settings merged e in
  if negb (isRunning e) then
    let e := set_remaining (duration_of (durations (settings e)) (currentMode e)) e in
    set_remainingAtStart (remaining e) e
  else e.

Definition getSettings (e : Engine) : TimerSettings := settings e.

(** The mode chosen by [tick] when a session has completed and
    [autoAdvance] is set; [completedFocusSessions] has already been
    incremented when this is evaluated. *)
Definition nextMode (e : Engine) : PomodoroMode :=
  if mode_eqb (currentMode e) focus then
    if (0 <? longBreakInterval (settings e))
       && (Z.rem (completedFocusSessions e) (longBreakInterval (settings e)) =? 0)
    then long_break
    else short_break
  else focus.

(** [tick(now?)]: [now ?? Date.now()] uses the argument when it is given.
    The result is the returned boolean and the engine after the call. *)
Definition tick (now : option Z) (clock : Z) (e : Engine) : bool * Engine :=
  if negb (isRunning e) then (false, e)
  else
    let currentTime := default clock now in
    let e :=
      match sessionStartTime e with
      | None =>
          let e := set_sessionStartTime (Some currentTime) e in
          set_remainingAtStart (remaining e) e
      | Some _ => e
      end in
    let elapsed := (currentTime - default currentTime (sessionStartTime e)) / 1000 in
    let newRemaining := remainingAtStart e - elapsed in
    if newRemaining <=? 0 then
      let e := set_remaining 0 e in
      let e := set_isRunning false e in
      let e := set_sessionStartTime None e in
      let e :=
        if mode_eqb (currentMode e) focus
        then set_completedFocusSessions (completedFocusSessions e + 1) e
        else e in
      let e :=
        if autoAdvance (settings e) then switchMode (nextMode e) e else e in
      (true, e)
    else (false, set_remaining newRemaining e).

Definition resumeFromState (remainingSeconds : Z) (mode : PomodoroMode)
    (running : bool) (completed : Z) (clock : Z) (e : Engine) : Engine :=
  let e := set_currentMode mode e in
  let e := set_remaining remainingSeconds e in
  let e := set_remainingAtStart remainingSeconds e in
  let e := set_completedFocusSessions completed e in
  let e := set_isRunning running e in
  set_sessionStartTime (if running then Some clock else None) e.

(** ** Sequences of calls

    A caller drives the engine through a sequence of method calls; each
    call carries its arguments and, where the method reads it, the value
    [Date.now()] returns during the call. *)

Inductive Op : Type :=
  | OpStart (clock : Z)
  | OpPause (clock : Z)
  | OpReset (mode : option PomodoroMode)
  | OpSwitchMode (mode : PomodoroMode)
  | OpUpdateSettings (newSettings : TimerSettings)
  | OpTick (now : option Z) (clock : Z)
  | OpResumeFromState (remainingSeconds : Z) (mode : PomodoroMode)
                      (running : bool) (completed : Z) (clock : Z).

Definition step (o : Op) (e : Engine) : Engine :=
  match o with
  | OpStart clock => start clock e
  | OpPause clock => pause clock e
  | OpReset mode => reset mode e
  | OpSwitchMode mode => switchMode mode e
  | OpUpdateSettings newSettings => updateSettings newSettings e
  | OpTick now clock => snd (tick now clock e)
  | OpResumeFromState r mode running completed clock =>
      resumeFromState r mode running completed clock e
  end.

Fixpoint run (ops : list Op) (e : Engine) : Engine :=
  match ops with
  | [] => e
  | o :: ops => run ops (step o e)
  end.

Definition is_resumeFromState (o : Op) : bool :=
  match o with
  | OpResumeFromState _ _ _ _ _ => true
  | _ => false
  end.

(** ** The range of [remaining] *)

(** [0 <= remaining <= durations[mode]] for the current settings and mode. *)
Definition remaining_in_range (e : Engine) : bool :=
  (0 <=? remaining e)
  && (remaining e <=? duration_of (durations (settings e)) (currentMode e)).

Definition durations_nonneg (d : Durations) : bool :=
  (0 <=? dur_focus d) && (0 <=? dur_short_break d) && (0 <=? dur_long_break d).

(** The time [t] read by a call does not precede the start of the running
    session. *)
Definition not_before_start (t : Z) (e : Engine) : bool :=
  match sessionStartTime e with
  | Some t0 => t0 <=? t
  | None => true
  end.

(** The calls under which the range of [remaining] is kept: clock readings
    do not run backwards past the session start, settings have no negative
    duration and do not shorten the current mode under a running session,
    and a restored [remainingSeconds] lies in the range of its mode. *)
Definition call_in_domain (e : Engine) (o : Op) : bool :=
  match o with
  | OpStart _ | OpReset _ | OpSwitchMode _ => true
  | OpPause clock => not_before_start clock e
  | OpTick now clock => not_before_start (default clock now) e
  | OpUpdateSettings newSettings =>
      durations_nonneg (durations newSettings)
      && (negb (isRunning e)
          || (duration_of (durations (settings e)) (currentMode e)
              <=? duration_of (durations newSettings) (currentMode e)))
  | OpResumeFromState r mode _ _ _ =>
      (0 <=? r) && (r <=? duration_of (durations (settings e)) mode)
  end.

Fixpoint calls_in_domain (ops : list Op) (e : Engine) : bool :=
  match ops with
  | [] => true
  | o :: ops => call_in_domain e o && calls_in_domain ops (step o e)
  end.

(** ** Settings as objects with optional keys

    [updateSettings] builds the new settings with object spreads.  On the
    declared argument type every key is present; to say what the spreads do
    to an argument with missing keys, a settings object is modelled with
    each property present or absent and the duration map as a finite map
    from property names to numbers. *)

Record SettingsObj : Type := mkSettingsObj {
  obj_durations : option (gmap string Z);
  obj_autoAdvance : option bool;
  obj_longBreakInterval : option Z;
  obj_soundEnabled : option bool;
  obj_notificationsEnabled : option bool
}.

Definition mode_key (m : PomodoroMode) : string :=
  match m with
  | focus => "focus"
  | short_break => "short_break"
  | long_break => "long_break"
  end.

(** One property of [{ ...a, ...b }]: the later spread wins when it has
    the property. *)
Definition spread_prop {A : Type} (a b : option A) : option A :=
  match b with
  | Some v => Some v
  | None => a
  end.

(** [{ ...o }] for an object [o] that may be [undefined]. *)
Definition spread_copy (o : option (gmap string Z)) : gmap string Z :=
  default ∅ o.

(** [{ ...settings, ...newSettings, durations: { ...newSettings.durations } }] *)
Definition updateSettings_spread (settings newSettings : SettingsObj) : SettingsObj :=
  mkSettingsObj
    (Some (spread_copy (obj_durations newSettings)))
    (spread_prop (obj_autoAdvance settings) (obj_autoAdvance newSettings))
    (spread_prop (obj_longBreakInterval settings) (obj_longBreakInterval newSettings))
    (spread_prop (obj_soundEnabled settings) (obj_soundEnabled newSettings))
    (spread_prop (obj_notificationsEnabled settings) (obj_notificationsEnabled newSettings)).

(** [o.durations[mode]], [None] when the map or the key is missing. *)
Definition obj_duration (o : SettingsObj) (m : PomodoroMode) : option Z :=
  obj_durations o ≫= (λ d : gmap string Z, d !! mode_key m).

(** A complete [TimerSettings] as an object. *)
Definition durations_obj (d : Durations) : gmap string Z :=
  <["focus" := dur_focus d]>
    (<["short_break" := dur_short_break d]>
       (<["long_break" := dur_long_break d]> ∅)).

Definition settings_obj (s : TimerSettings) : SettingsObj :=
  mkSettingsObj (Some (durations_obj (durations s)))
                (Some (autoAdvance s))
                (Some (longBreakInterval s))
                (Some (soundEnabled s))
                (Some (notificationsEnabled s)).

(** ** Settings used in the tests ([tests/timer.test.ts]) *)

Definition defaultSettings : TimerSettings :=
  mkSettings (mkDurations 5 2 3) false 2 false false.

Definition autoSettings : TimerSettings :=
  mkSettings (mkDurations 5 2 3) true 2 false false.

(** ** The two outcomes of [tick] *)

(** The value [tick] compares with zero: [remainingAtStart - elapsed], where
    a running engine without a start time counts from [currentTime]. *)
Definition candidateRemaining (currentTime : Z) (e : Engine) : Z :=
  match sessionStartTime e with
  | Some t0 => remainingAtStart e - (currentTime - t0) / 1000
  | None => remaining e - (currentTime - currentTime) / 1000
  end.

(** The engine after a completed session, before the automatic switch. *)
Definition completed_session (e : Engine) : Engine :=
  mkEngine (settings e) (currentMode e) 0 false None
           (match sessionStartTime e with
            | Some _ => remainingAtStart e
            | None => remaining e
            end)
           (if mode_eqb (currentMode e) focus
            then completedFocusSessions e + 1
            else completedFocusSessions e).

(** ** What the calls in the domain preserve *)

(** No duration is negative, [remaining] lies within [0, durations[mode]]
    and the snapshot [remainingAtStart] does not exceed [durations[mode]]. *)
Definition range_invariant (e : Engine) : Prop :=
  durations_nonneg (durations (settings e)) = true
  /\ 0 <= remaining e <= duration_of (durations (settings e)) (currentMode e)
  /\ remainingAtStart e <= duration_of (durations (settings e)) (currentMode e).

(** An update that names only the focus duration. *)
Definition focusOnlyUpdate : SettingsObj :=
  mkSettingsObj (Some (<["focus" := 10]> ∅)) None None None None.

(** ** Scenarios built from the engine's calls *)

(** [isRunning] as the start time tells it: set or [null]. *)
Definition session_started (e : Engine) : bool :=
  match sessionStartTime e with
  | Some _ => true
  | None => false
  end.

(** A burst of [tick]s, each with its own [now]. *)
Definition ticks (clock : Z) (nows : list Z) (e : Engine) : Engine :=
  run (map (fun n => OpTick (Some n) clock) nows) e.

(** One whole session: [start] at [t], then a [tick] dated the remaining
    number of seconds later. *)
Definition runSession (t : Z) (e : Engine) : Engine :=
  snd (tick (Some (t + remaining e * 1000)) t (start t e)).

(** Whole sessions one after the other, started at the given times. *)
Fixpoint runSessions (ts : list Z) (e : Engine) : Engine :=
  match ts with
  | [] => e
  | t :: ts => runSessions ts (runSession t e)
  end.

(** The mode the cycle is in after [j] whole sessions when the counter
    stands at [c] and long breaks come every [n] focus sessions. *)
Definition cycle_mode (n : Z) (j : nat) (c : Z) : PomodoroMode :=
  if Nat.even j then focus
  else if Z.rem c n =? 0 then long_break else short_break.

(** The engine between two sessions, [j] sessions into the cycle, under the
    settings [s] with long breaks every [n] focus sessions. *)
Definition between_sessions (s : TimerSettings) (n : Z) (j : nat) (e : Engine) : Prop :=
  settings e = s
  /\ isRunning e = false
  /\ completedFocusSessions e = Z.of_nat (Nat.div2 (S j))
  /\ currentMode e = cycle_mode n j (completedFocusSessions e)
  /\ remaining e = duration_of (durations s) (currentMode e).

(** ** The hook around the engine ([lib/usePomodoroTimer.ts])

    [usePomodoroTimer] keeps a [StorageSchema] in React state next to the
    engine.  Its handlers call the engine and queue state updaters
    [setState (prev => ...)]; an updater is modelled as a function of
    [prev].  Identifiers from [generateId] and readings of [Date.now()] are
    arguments.  Sound and desktop notifications are outside the model. *)

Record Task : Type := mkTask {
  task_id : string;
  task_title : string;
  task_notes : option string;
  task_estimate : option Z;
  task_completed : Z;
  task_createdAt : Z;
  task_updatedAt : Z
}.

Record SessionLogEntry : Type := mkSessionLogEntry {
  log_id : string;
  log_timestamp : Z;
  log_mode : PomodoroMode;
  log_duration : Z;
  log_taskId : option string;
  log_taskTitle : option string
}.

(** [endTimestamp] is [number | null]. *)
Record TimerPersistedState : Type := mkTimerPersistedState {
  ps_mode : PomodoroMode;
  ps_endTimestamp : option Z;
  ps_isRunning : bool;
  ps_completedFocusSessions : Z
}.

Record StorageSchema : Type := mkStorageSchema {
  version : Z;
  timerSettings : TimerSettings;
  tasks : list Task;
  activeTaskId : option string;
  sessionLogs : list SessionLogEntry;
  timerState : option TimerPersistedState
}.

Definition set_timerState (v : option TimerPersistedState) (s : StorageSchema)
    : StorageSchema :=
  mkStorageSchema (version s) (timerSettings s) (tasks s) (activeTaskId s)
                  (sessionLogs s) v.

Definition set_timerSettings (v : TimerSettings) (s : StorageSchema) : StorageSchema :=
  mkStorageSchema (version s) v (tasks s) (activeTaskId s) (sessionLogs s) (timerState s).

(** What [updatePersistedTimerState] stores: the end of the session in
    place of the remaining seconds, and only for a running timer. *)
Definition persistedTimerState (clock : Z) (e : Engine) : TimerPersistedState :=
  mkTimerPersistedState
    (currentMode e)
    (if isRunning e then Some (clock + remaining e * 1000) else None)
    (isRunning e)
    (completedFocusSessions e).

Definition updatePersistedTimerState (clock : Z) (e : Engine) (prev : StorageSchema)
    : StorageSchema :=
  set_timerState (Some (persistedTimerState clock e)) prev.

(** [Math.ceil (x / 1000)] for an integer [x]. *)
Definition ceil_seconds (x : Z) : Z := - ((- x) / 1000).

(** The effect run on mount: rehydrate the engine from [state.timerState].
    [ts.isRunning && ts.endTimestamp] is false for [null] and for [0];
    [clock] is the reading in the effect and [clock'] the one inside
    [resumeFromState]. *)
Definition restoreTimerState (ts : option TimerPersistedState) (clock clock' : Z)
    (e : Engine) : Engine :=
  match ts with
  | None => e
  | Some ts =>
      let mode := ps_mode ts in
      let fromDurations := Z.max 0 (duration_of (durations (getSettings e)) mode) in
      let remainingSec :=
        match ps_isRunning ts, ps_endTimestamp ts with
        | true, Some endTimestamp =>
            if endTimestamp =? 0 then fromDurations
            else
              let diff := ceil_seconds (endTimestamp - clock) in
              if 0 <? diff then diff else 0
        | _, _ => fromDurations
        end in
      resumeFromState remainingSec mode (ps_isRunning ts && (0 <? remainingSec))
                      (ps_completedFocusSessions ts) clock' e
  end.

(** [t.id === prev.activeTaskId], where the right side may be [undefined]. *)
Definition is_active (active : option string) (t : Task) : bool :=
  match active with
  | Some i => String.eqb (task_id t) i
  | None => false
  end.

(** Truthiness of [string | undefined]: the empty string is falsy. *)
Definition truthy_id (active : option string) : bool :=
  match active with
  | Some i => negb (String.eqb i "")
  | None => false
  end.

(** The state updater of [handleSessionComplete (wasFocus)]; [mode] and
    [duration] are what the handler read before queueing it. *)
Definition sessionCompleteUpdater (wasFocus : bool) (now : Z) (mode : PomodoroMode)
    (duration : Z) (newId : string) (prev : StorageSchema) : StorageSchema :=
  let tasks' :=
    if wasFocus && truthy_id (activeTaskId prev) then
      map (fun t =>
             if is_active (activeTaskId prev) t
             then mkTask (task_id t) (task_title t) (task_notes t) (task_estimate t)
                         (task_completed t + 1) (task_createdAt t) now
             else t)
          (tasks prev)
    else tasks prev in
  let newLog :=
    mkSessionLogEntry newId now mode duration
      (if wasFocus then activeTaskId prev else None)
      (if wasFocus
       then option_map task_title (find (is_active (activeTaskId prev)) tasks')
       else None) in
  mkStorageSchema (version prev) (timerSettings prev) tasks' (activeTaskId prev)
                  (sessionLogs prev ++ [newLog]) (timerState prev).

(** The callback of [setInterval]: [tick()], then, on completion,
    [handleSessionComplete (timer.state.mode === 'focus')] with the mode
    read after the [tick], then [updatePersistedTimerState ()].
    [handlerSettings] is the [state.timerSettings] the handler closed over;
    the three clocks are the readings of [tick], of the handler and of the
    persisting call. *)
Definition intervalCallback (handlerSettings : TimerSettings)
    (clock clockHandler clockPersist : Z) (newId : string)
    (hs : StorageSchema) (e : Engine) : StorageSchema * Engine :=
  let completed := fst (tick None clock e) in
  let e := snd (tick None clock e) in
  let hs :=
    if completed then
      let wasFocus := mode_eqb (currentMode e) focus in
      let mode := currentMode e in
      let duration := duration_of (durations handlerSettings) mode in
      sessionCompleteUpdater wasFocus clockHandler mode duration newId hs
    else hs in
  (updatePersistedTimerState clockPersist e hs, e).

(** [Notification.permission], [None] when the browser has no
    [Notification]. *)
Inductive NotificationPermission : Type :=
  | granted
  | undecided
  | denied.

(** The [notificationsEnabled] computed by the updater of the hook's
    [updateSettings]; [requested] is [partial.notificationsEnabled]. *)
Definition resolveNotifications (permission : option NotificationPermission)
    (previous : bool) (requested : option bool) : bool :=
  match requested with
  | None => previous
  | Some true =>
      match permission with
      | Some granted => true
      | Some undecided => false
      | Some denied => false
      | None => previous
      end
  | Some false => false
  end.

(** One key of [{ ...prev.timerSettings.durations, ...partial.durations }]. *)
Definition merged_duration (previous : Durations) (partial : SettingsObj)
    (m : PomodoroMode) : Z :=
  default (duration_of previous m) (obj_duration partial m).

(** The [newSettings] built by the hook's [updateSettings (partial)]. *)
Definition hookNewSettings (permission : option NotificationPermission)
    (partial : SettingsObj) (previous : TimerSettings) : TimerSettings :=
  mkSettings
    (mkDurations (merged_duration (durations previous) partial focus)
                 (merged_duration (durations previous) partial short_break)
                 (merged_duration (durations previous) partial long_break))
    (default (autoAdvance previous) (obj_autoAdvance partial))
    (default (longBreakInterval previous) (obj_longBreakInterval partial))
    (default (soundEnabled previous) (obj_soundEnabled partial))
    (resolveNotifications permission (notificationsEnabled previous)
                          (obj_notificationsEnabled partial)).

(** The updater of the hook's [updateSettings]: it also passes the new
    settings to the engine. *)
Definition hookUpdateSettings (permission : option NotificationPermission)
    (partial : SettingsObj) (prev : StorageSchema) (e : Engine)
    : StorageSchema * Engine :=
  let newSettings := hookNewSettings permission partial (timerSettings prev) in
  (set_timerSettings newSettings prev, updateSettings newSettings e).

(** [setDuration (mode, minutes)] of [TimerCard]: the partial settings it
    passes to the hook, built from the settings of the current render. *)
Definition setDurationUpdate (current : TimerSettings) (mode : PomodoroMode)
    (minutes : Z) : SettingsObj :=
  mkSettingsObj
    (Some (<[mode_key mode := minutes * 60]> (durations_obj (durations current))))
    None None None None.


(** ** The reimplementation in the manual test script ([manual_timer_test.cjs])

    The script does not import the engine: it carries its own
    [createPomodoroTimer], written in plain JavaScript, and runs the tests
    against that.  It has no [remainingAtStart]; [tick] uses
    [now || Date.now()], which also replaces a [now] of 0 by the clock, and
    subtracts from [settings.durations[mode]].  [sessionStart] is [null]
    when stopped; in arithmetic [null] counts as 0. *)

Module Manual.

Record Timer : Type := mkTimer {
  settings : TimerSettings;
  mode : PomodoroMode;
  remaining : Z;
  isRunning : bool;
  sessionStart : option Z;
  completedFocusSessions : Z
}.

Definition state (e : Timer) : PomodoroState :=
  mkState (mode e) (remaining e) (isRunning e) (completedFocusSessions e).

Definition createPomodoroTimer (settings : TimerSettings) : Timer :=
  mkTimer settings focus (duration_of (durations settings) focus) false None 0.

Definition start (clock : Z) (e : Timer) : Timer :=
  if isRunning e then e
  else mkTimer (settings e) (mode e) (remaining e) true (Some clock)
               (completedFocusSessions e).

Definition pause (clock : Z) (e : Timer) : Timer :=
  if negb (isRunning e) then e
  else
    let elapsed := (clock - default 0 (sessionStart e)) / 1000 in
    mkTimer (settings e) (mode e) (Z.max 0 (remaining e - elapsed)) false None
            (completedFocusSessions e).

(** [if (newMode) mode = newMode]: the three mode names are truthy. *)
Definition reset (newMode : option PomodoroMode) (e : Timer) : Timer :=
  let mode := default (mode e) newMode in
  mkTimer (settings e) mode (duration_of (durations (settings e)) mode) false None
          (completedFocusSessions e).

Definition switchMode (newMode : PomodoroMode) (e : Timer) : Timer :=
  mkTimer (settings e) newMode (duration_of (durations (settings e)) newMode) false None
          (completedFocusSessions e).

Definition tick (now : option Z) (clock : Z) (e : Timer) : bool * Timer :=
  if negb (isRunning e) then (false, e)
  else
    let currentTime :=
      match now with
      | Some n => if n =? 0 then clock else n
      | None => clock
      end in
    let elapsed := (currentTime - default 0 (sessionStart e)) / 1000 in
    let newRemaining := duration_of (durations (settings e)) (mode e) - elapsed in
    if newRemaining <=? 0 then
      let completed :=
        if mode_eqb (mode e) focus
        then completedFocusSessions e + 1
        else completedFocusSessions e in
      let e := mkTimer (settings e) (mode e) 0 false None completed in
      let e :=
        if autoAdvance (settings e) then
          let nextMode :=
            if mode_eqb (mode e) focus then
              if (0 <? longBreakInterval (settings e))
                 && (Z.rem (completedFocusSessions e) (longBreakInterval (settings e)) =? 0)
              then long_break
              else short_break
            else focus in
          switchMode nextMode e
        else e in
      (true, e)
    else
      (false, mkTimer (settings e) (mode e) newRemaining (isRunning e) (sessionStart e)
                      (completedFocusSessions e)).

(** A burst of [tick]s, each with its own [now]. *)
Fixpoint ticks (clock : Z) (nows : list Z) (e : Timer) : Timer :=
  match nows with
  | [] => e
  | n :: nows => ticks clock nows (snd (tick (Some n) clock e))
  end.

End Manual.

(** The engine and the reimplementation stand at the same point: same
    settings and observable state, and when running, the same start time
    with the full duration of the mode as the engine's snapshot. *)
Definition same_point (e : Engine) (m : Manual.Timer) : Prop :=
  settings e = Manual.settings m
  /\ state e = Manual.state m
  /\ (isRunning e = true ->
      sessionStartTime e = Manual.sessionStart m
      /\ (exists t0, sessionStartTime e = Some t0)
      /\ remainingAtStart e = duration_of (durations (settings e)) (currentMode e)).

(** ** The clock face ([components/TimerCard.tsx]) *)

(** [String (n)] for an integer (below 10^21, where JavaScript still prints
    every digit). *)
Definition number_to_string (n : Z) : string :=
  NilZero.string_of_int (Z.to_int n).

(** [s.padStart (2, '0')] *)
Definition padStart2 (s : string) : string :=
  match String.length s with
  | O => String "0"%char (String "0"%char s)
  | S O => String "0"%char s
  | _ => s
  end.

Definition formatTime (sec : Z) : string :=
  let minutes := sec / 60 in
  let seconds := Z.rem sec 60 in
  (padStart2 (number_to_string minutes) ++ ":" ++ padStart2 (number_to_string seconds))%string.

(** Reading a clock face of the shape [mm:ss] back; used to show that the
    faces of different times differ. *)
Definition readTime (s : string) : option Z :=
  match s with
  | String a (String b (String c (String d (String f EmptyString)))) =>
      if Ascii.eqb c ":"%char then
        match NilZero.int_of_string (String a (String b EmptyString)),
              NilZero.int_of_string (String d (String f EmptyString)) with
        | Some m, Some x => Some (Z.of_int m * 60 + Z.of_int x)
        | _, _ => None
        end
      else None
  | _ => None
  end.

(** * Properties of the engine *)

(** ** Arithmetic of elapsed seconds *)

Lemma elapsed_whole_seconds (t0 k : Z) : (t0 + k * 1000 - t0) / 1000 = k.
Proof. replace (t0 + k * 1000 - t0) with (k * 1000) by lia. apply Z.div_mul. lia. Qed.

Lemma elapsed_nonneg (t0 t : Z) : t0 <= t -> 0 <= (t - t0) / 1000.
Proof. intros H. apply Z.div_pos; lia. Qed.

Lemma elapsed_negative (t0 t : Z) : t < t0 -> (t - t0) / 1000 < 0.
Proof. intros H. apply Z.div_lt_upper_bound; lia. Qed.

Lemma mode_eqb_eq (a b : PomodoroMode) : mode_eqb a b = true <-> a = b.
Proof. destruct a, b; simpl; split; congruence. Qed.

(** ** What [tick] does, case by case *)

Lemma tick_idle now clock e :
  isRunning e = false -> tick now clock e = (false, e).
Proof. intros H. unfold tick. rewrite H. reflexivity. Qed.

Lemma tick_completes now clock e :
  isRunning e = true ->
  candidateRemaining (default clock now) e <= 0 ->
  tick now clock e =
    (true, if autoAdvance (settings e)
           then switchMode (nextMode (completed_session e)) (completed_session e)
           else completed_session e).
Proof.
  intros Hrun Hc. unfold tick, candidateRemaining in *. rewrite Hrun. cbn [negb].
  destruct e as [st m r run sst ras c]; cbn in *.
  destruct sst as [t0|]; cbn in *.
  - destruct (Z.leb_spec (ras - (default clock now - t0) / 1000) 0); [|lia].
    unfold completed_session; cbn. destruct (mode_eqb m focus); reflexivity.
  - destruct (Z.leb_spec (r - (default clock now - default clock now) / 1000) 0); [|lia].
    unfold completed_session; cbn. destruct (mode_eqb m focus); reflexivity.
Qed.

Lemma tick_counts_down now clock e t0 :
  isRunning e = true ->
  sessionStartTime e = Some t0 ->
  0 < candidateRemaining (default clock now) e ->
  tick now clock e =
    (false, set_remaining (remainingAtStart e - (default clock now - t0) / 1000) e).
Proof.
  intros Hrun Hs Hc. unfold tick, candidateRemaining in *. rewrite Hrun. cbn [negb].
  destruct e as [st m r run sst ras c]; cbn in *. subst sst. cbn.
  destruct (Z.leb_spec (ras - (default clock now - t0) / 1000) 0); [lia|].
  reflexivity.
Qed.

Lemma tick_true_iff now clock e :
  fst (tick now clock e) = true
  <-> isRunning e = true /\ candidateRemaining (default clock now) e <= 0.
Proof.
  destruct (isRunning e) eqn:Hrun.
  - destruct (Z.le_gt_cases (candidateRemaining (default clock now) e) 0) as [Hc|Hc].
    + rewrite tick_completes by assumption. cbn. tauto.
    + split; [|lia]. intros H. exfalso. revert H.
      unfold tick, candidateRemaining in *. rewrite Hrun. cbn [negb].
      destruct e as [st m r run sst ras c]; cbn in *.
      destruct sst as [t0|]; cbn in *.
      * destruct (Z.leb_spec (ras - (default clock now - t0) / 1000) 0); [lia|].
        cbn. discriminate.
      * destruct (Z.leb_spec (r - (default clock now - default clock now) / 1000) 0); [lia|].
        cbn. discriminate.
  - rewrite tick_idle by assumption. cbn. split; [discriminate|]. intros [H _]. discriminate.
Qed.

(** ** Start, then tick after the whole remaining time *)

(** C1 as stated fails under [autoAdvance]: with the durations 5/2/3 of the
    tests and [autoAdvance] set, [start] at 1000 and [tick] 5 seconds later
    leave the engine stopped in [short_break] with [remaining = 2], the full
    short break, and not 0. *)
Lemma start_tick_autoAdvance_counterexample :
  duration_of (durations autoSettings) (currentMode (createPomodoroTimer autoSettings)) = 5
  /\ remaining (snd (tick (Some (1000 + 5 * 1000)) 1000
                      (start 1000 (createPomodoroTimer autoSettings)))) = 2
  /\ ~ (remaining (snd (tick (Some (1000 + 5 * 1000)) 1000
                         (start 1000 (createPomodoroTimer autoSettings)))) = 0
        /\ isRunning (snd (tick (Some (1000 + 5 * 1000)) 1000
                            (start 1000 (createPomodoroTimer autoSettings)))) = false).
Proof.
  split; [reflexivity|]. split; [reflexivity|].
  intros [H _]. vm_compute in H. discriminate H.
Qed.

(** C1 (amended): for every idle engine with [d] seconds remaining (after
    [createPomodoroTimer], [reset] or [switchMode], [d] is [durations[mode]])
    and any settings, [start] at [t0] followed by [tick (t0 + d*1000)]
    reports completion and leaves [isRunning = false].  When [autoAdvance]
    is false the mode is unchanged and [remaining = 0]; when [autoAdvance]
    is true the engine has switched to the next mode and [remaining] is the
    full duration of that mode. *)
Theorem start_then_tick_full_duration (e : Engine) (t0 clock : Z) :
  isRunning e = false ->
  let r := tick (Some (t0 + remaining e * 1000)) clock (start t0 e) in
  fst r = true
  /\ isRunning (snd r) = false
  /\ (autoAdvance (settings e) = false ->
        remaining (snd r) = 0 /\ currentMode (snd r) = currentMode e)
  /\ (autoAdvance (settings e) = true ->
        currentMode (snd r) = nextMode (completed_session (start t0 e))
        /\ remaining (snd r) = duration_of (durations (settings e)) (currentMode (snd r))).
Proof.
  intros Hidle r. subst r.
  assert (Hrun : isRunning (start t0 e) = true)
    by (unfold start; rewrite Hidle; reflexivity).
  assert (Hc : candidateRemaining (default clock (Some (t0 + remaining e * 1000)))
                 (start t0 e) <= 0).
  { unfold candidateRemaining, start. rewrite Hidle. cbn.
    rewrite elapsed_whole_seconds. lia. }
  rewrite (tick_completes _ _ _ Hrun Hc).
  assert (Hset : settings (start t0 e) = settings e)
    by (unfold start; rewrite Hidle; reflexivity).
  assert (Hmode : currentMode (start t0 e) = currentMode e)
    by (unfold start; rewrite Hidle; reflexivity).
  rewrite Hset. cbn [fst snd].
  destruct (autoAdvance (settings e)); cbn [fst snd].
  - split; [reflexivity|]. split; [reflexivity|].
    split; intros H; [discriminate H|].
    split; [reflexivity|]. cbn. rewrite Hset. reflexivity.
  - split; [reflexivity|]. split; [reflexivity|].
    split; intros H; [|discriminate H]. split; [reflexivity|exact Hmode].
Qed.

Lemma start_then_tick_full_duration_witness :
  isRunning (createPomodoroTimer autoSettings) = false
  /\ fst (tick (Some (1000 + remaining (createPomodoroTimer autoSettings) * 1000)) 7
            (start 1000 (createPomodoroTimer autoSettings))) = true.
Proof.
  split; [reflexivity|].
  exact (proj1 (start_then_tick_full_duration
                  (createPomodoroTimer autoSettings) 1000 7 eq_refl)).
Defined.

(** Without [autoAdvance] the test's reading holds: [remaining = 0]. *)
Example start_tick_defaultSettings :
  state (snd (tick (Some (1000 + 5 * 1000)) 1000
               (start 1000 (createPomodoroTimer defaultSettings))))
  = mkState focus 0 false 1.
Proof. reflexivity. Qed.

(** ** Pause and resume *)

(** C2: from an idle engine with more than [k > 0] seconds remaining,
    [start] at [t0], [tick] and [pause] at [t0 + k*1000], an idle gap
    [g >= 0], [start] again and [tick] [s] seconds after the second start
    give the same returned value and the same observable state (mode,
    remaining, isRunning, completedFocusSessions) as [start] at [t0] and
    [tick] at [t0 + (k+s)*1000], with or without the intermediate [tick];
    after the pause and after the second start [remaining] is the value
    before the first start minus [k], whatever the gap. *)
Theorem pause_resume_excludes_idle (e : Engine) (t0 k g s clock : Z) :
  isRunning e = false ->
  0 < k < remaining e ->
  0 <= g ->
  let ticked := snd (tick (Some (t0 + k * 1000)) clock (start t0 e)) in
  let paused := pause (t0 + k * 1000) ticked in
  let resumed := start (t0 + k * 1000 + g) paused in
  let interrupted := tick (Some (t0 + k * 1000 + g + s * 1000)) clock resumed in
  let continuous := tick (Some (t0 + (k + s) * 1000)) clock (start t0 e) in
  remaining paused = remaining e - k
  /\ isRunning paused = false
  /\ remaining resumed = remaining e - k
  /\ fst interrupted = fst continuous
  /\ state (snd interrupted) = state (snd continuous)
  /\ tick (Some (t0 + (k + s) * 1000)) clock ticked = continuous.
Proof.
  intros Hidle Hk Hg.
  destruct e as [st m r run sst ras c]; cbn in *. subst run.
  unfold tick, start, pause; cbn.
  rewrite !elapsed_whole_seconds.
  destruct (Z.leb_spec (r - k) 0) as [H|H]; [lia|]. cbn.
  rewrite !elapsed_whole_seconds.
  rewrite Z.max_r by lia.
  replace (r - k - s) with (r - (k + s)) by lia.
  destruct (Z.leb_spec (r - (k + s)) 0) as [H'|H']; cbn.
  - destruct (mode_eqb m focus); cbn; destruct (autoAdvance st); cbn;
      repeat split; reflexivity.
  - repeat split; reflexivity.
Qed.

Lemma pause_resume_excludes_idle_witness :
  isRunning (createPomodoroTimer defaultSettings) = false
  /\ 0 < 2 < remaining (createPomodoroTimer defaultSettings)
  /\ 0 <= 2000
  /\ state (snd (tick (Some (1000 + 2 * 1000 + 2000 + 3 * 1000)) 0
                   (start (1000 + 2 * 1000 + 2000)
                      (pause (1000 + 2 * 1000)
                         (snd (tick (Some (1000 + 2 * 1000)) 0
                                 (start 1000 (createPomodoroTimer defaultSettings))))))))
     = state (snd (tick (Some (1000 + (2 + 3) * 1000)) 0
                     (start 1000 (createPomodoroTimer defaultSettings)))).
Proof.
  split; [reflexivity|]. split; [cbn; lia|]. split; [lia|].
  refine (proj1 (proj2 (proj2 (proj2 (proj2
    (pause_resume_excludes_idle (createPomodoroTimer defaultSettings)
       1000 2 2000 3 0 eq_refl _ _)))))); cbn; lia.
Defined.

(** The pause/resume test: 2 seconds run, a pause, a [tick] during the pause
    that changes nothing, then the remaining 3 seconds. *)
Example pause_resume_test :
  remaining (run [OpStart 1000; OpTick (Some 3000) 0] (createPomodoroTimer defaultSettings)) = 3
  /\ remaining (run [OpStart 1000; OpTick (Some 3000) 0; OpPause 3000; OpTick (Some 5000) 0]
                    (createPomodoroTimer defaultSettings)) = 3
  /\ state (run [OpStart 1000; OpTick (Some 3000) 0; OpPause 3000; OpTick (Some 5000) 0;
                 OpStart 5000; OpTick (Some (5000 + 3 * 1000)) 0]
                (createPomodoroTimer defaultSettings))
     = mkState focus 0 false 1.
Proof. repeat split. Qed.

(** ** The auto-advance policy *)

Lemma long_break_test (c n : Z) :
  0 < n -> ((0 <? n) && (Z.rem c n =? 0) = true <-> (n | c)).
Proof.
  intros Hn. rewrite andb_true_iff, Z.ltb_lt, Z.eqb_eq, Z.rem_divide by lia. tauto.
Qed.

(** C3: with [autoAdvance = true] and [longBreakInterval = n > 0], a [tick]
    that completes a session (the engine is running and the candidate
    remaining time is at most 0) returns [true]; from [focus] it increments
    [completedFocusSessions] and the new mode is [long_break] when the
    incremented counter is divisible by [n] and [short_break] when it is
    not; from [short_break] or [long_break] the new mode is [focus] and the
    counter is unchanged. *)
Theorem autoAdvance_policy (e : Engine) (now : option Z) (clock n : Z) :
  autoAdvance (settings e) = true ->
  longBreakInterval (settings e) = n ->
  0 < n ->
  isRunning e = true ->
  candidateRemaining (default clock now) e <= 0 ->
  fst (tick now clock e) = true
  /\ match currentMode e with
     | focus =>
         completedFocusSessions (snd (tick now clock e)) = completedFocusSessions e + 1
         /\ ((n | completedFocusSessions e + 1) ->
             currentMode (snd (tick now clock e)) = long_break)
         /\ (~ (n | completedFocusSessions e + 1) ->
             currentMode (snd (tick now clock e)) = short_break)
     | short_break | long_break =>
         completedFocusSessions (snd (tick now clock e)) = completedFocusSessions e
         /\ currentMode (snd (tick now clock e)) = focus
     end.
Proof.
  intros Hauto Hn Hpos Hrun Hc.
  rewrite (tick_completes _ _ _ Hrun Hc), Hauto. cbn [fst snd].
  split; [reflexivity|].
  destruct e as [st m r run sst ras c]; cbn in *.
  destruct m; cbn; unfold nextMode; cbn; rewrite ?Hn.
  - split; [reflexivity|].
    pose proof (long_break_test (c + 1) n Hpos) as Htest.
    destruct ((0 <? n) && (Z.rem (c + 1) n =? 0)).
    + split; [reflexivity|]. intros Hnd. exfalso. apply Hnd, Htest. reflexivity.
    + split; [|reflexivity]. intros Hd. apply Htest in Hd. discriminate Hd.
  - split; reflexivity.
  - split; reflexivity.
Qed.

Lemma autoAdvance_policy_witness :
  currentMode (snd (tick (Some 6000) 0
     (start 1000 (switchMode focus
        (snd (tick (Some 6000) 0 (start 1000 (createPomodoroTimer autoSettings)))))))) = long_break.
Proof.
  refine (proj1 (proj2 (proj2 (autoAdvance_policy
    (start 1000 (switchMode focus
        (snd (tick (Some 6000) 0 (start 1000 (createPomodoroTimer autoSettings))))))
    (Some 6000) 0 2 eq_refl eq_refl _ eq_refl _))) _).
  - lia.
  - vm_compute. discriminate.
  - exists 1. reflexivity.
Defined.

(** The example of the tests: the first focus completion leads to a short
    break, the second to a long break. *)
Example long_break_after_two_sessions :
  state (snd (tick (Some 6000) 0 (start 1000 (createPomodoroTimer autoSettings))))
    = mkState short_break 2 false 1
  /\ state (snd (tick (Some 6000) 0
       (start 1000 (switchMode focus
          (snd (tick (Some 6000) 0 (start 1000 (createPomodoroTimer autoSettings))))))))
    = mkState long_break 3 false 2.
Proof. split; reflexivity. Qed.

(** ** Manual mode changes *)

(** C4: for every engine and every mode [m], [switchMode m] leaves the
    engine in exactly the state [reset m] leaves it in: the mode is [m],
    [remaining] and [remainingAtStart] are [durations[m]], the timer is
    stopped, the start time is cleared, and [completedFocusSessions] and the
    settings are unchanged. *)
Theorem switchMode_eq_reset (e : Engine) (m : PomodoroMode) :
  switchMode m e = reset (Some m) e
  /\ currentMode (switchMode m e) = m
  /\ remaining (switchMode m e) = duration_of (durations (settings e)) m
  /\ remainingAtStart (switchMode m e) = duration_of (durations (settings e)) m
  /\ isRunning (switchMode m e) = false
  /\ sessionStartTime (switchMode m e) = None
  /\ completedFocusSessions (switchMode m e) = completedFocusSessions e
  /\ settings (switchMode m e) = settings e.
Proof. repeat split. Qed.

(** [reset()] without an argument keeps the current mode. *)
Lemma reset_default_mode (e : Engine) : reset None e = switchMode (currentMode e) e.
Proof. reflexivity. Qed.

(** ** Restoring persisted state *)

(** C8: [resumeFromState] stores [remainingSeconds] in [remaining] and in
    [remainingAtStart] as it is, for every integer; the engine after the
    call has [remaining] within [0, durations[mode]] exactly when the
    argument was, so a negative argument or one above the duration of the
    mode leaves [remaining] outside the range. *)
Theorem resumeFromState_verbatim (e : Engine) (r : Z) (m : PomodoroMode)
    (running : bool) (completed clock : Z) :
  remaining (resumeFromState r m running completed clock e) = r
  /\ remainingAtStart (resumeFromState r m running completed clock e) = r
  /\ currentMode (resumeFromState r m running completed clock e) = m
  /\ isRunning (resumeFromState r m running completed clock e) = running
  /\ completedFocusSessions (resumeFromState r m running completed clock e) = completed
  /\ settings (resumeFromState r m running completed clock e) = settings e
  /\ remaining_in_range (resumeFromState r m running completed clock e)
     = (0 <=? r) && (r <=? duration_of (durations (settings e)) m).
Proof. repeat split. Qed.

Example resumeFromState_negative :
  remaining (resumeFromState (-7) focus false 0 0 (createPomodoroTimer defaultSettings)) = -7
  /\ remaining_in_range
       (resumeFromState (-7) focus false 0 0 (createPomodoroTimer defaultSettings)) = false.
Proof. split; reflexivity. Qed.

Example resumeFromState_above_duration :
  remaining (resumeFromState 99 short_break true 0 0 (createPomodoroTimer defaultSettings)) = 99
  /\ remaining_in_range
       (resumeFromState 99 short_break true 0 0 (createPomodoroTimer defaultSettings)) = false.
Proof. split; reflexivity. Qed.

(** ** The counter of completed focus sessions *)

Lemma tick_completed_monotone now clock e :
  completedFocusSessions e <= completedFocusSessions (snd (tick now clock e)).
Proof.
  destruct (isRunning e) eqn:Hrun; [|rewrite tick_idle by assumption; cbn; lia].
  destruct (Z.le_gt_cases (candidateRemaining (default clock now) e) 0) as [Hc|Hc].
  - rewrite tick_completes by assumption. cbn [snd].
    destruct (autoAdvance (settings e)); cbn;
      destruct (mode_eqb (currentMode e) focus); lia.
  - unfold tick, candidateRemaining in *. rewrite Hrun. cbn [negb].
    destruct e as [st m r run sst ras c]; cbn in *.
    destruct sst as [t0|]; cbn in *.
    + destruct (Z.leb_spec (ras - (default clock now - t0) / 1000) 0); [lia|]. cbn. lia.
    + destruct (Z.leb_spec (r - (default clock now - default clock now) / 1000) 0); [lia|].
      cbn. lia.
Qed.

Lemma step_completed_monotone o e :
  is_resumeFromState o = false ->
  completedFocusSessions e <= completedFocusSessions (step o e).
Proof.
  destruct o; cbn [is_resumeFromState step]; intros Ho; try discriminate Ho.
  - unfold start. destruct (isRunning e); cbn; lia.
  - unfold pause. destruct (isRunning e); cbn; [|lia].
    destruct (sessionStartTime e); cbn; lia.
  - cbn. lia.
  - cbn. lia.
  - unfold updateSettings. cbn. destruct (isRunning e); cbn; lia.
  - apply tick_completed_monotone.
Qed.

(** C7: along every finite sequence of [start], [pause], [reset],
    [switchMode], [updateSettings] and [tick] calls
    [completedFocusSessions] never decreases; [reset] and [switchMode] leave
    it unchanged; a call that lowers it is a [resumeFromState], and
    [resumeFromState] can lower it. *)
Theorem completedFocusSessions_monotone (ops : list Op) (e : Engine) :
  forallb (fun o => negb (is_resumeFromState o)) ops = true ->
  completedFocusSessions e <= completedFocusSessions (run ops e)
  /\ (forall e' m, completedFocusSessions (reset m e') = completedFocusSessions e')
  /\ (forall e' m, completedFocusSessions (switchMode m e') = completedFocusSessions e')
  /\ (forall e' o, completedFocusSessions (step o e') < completedFocusSessions e' ->
                   is_resumeFromState o = true)
  /\ (exists e' r m running c clock,
        completedFocusSessions (resumeFromState r m running c clock e')
        < completedFocusSessions e').
Proof.
  intros Hops. split; [|split; [|split; [|split]]].
  - revert e Hops. induction ops as [|o ops IH]; intros e Hops; cbn in *; [lia|].
    apply andb_true_iff in Hops as [Ho Hops]. apply negb_true_iff in Ho.
    pose proof (step_completed_monotone o e Ho). specialize (IH (step o e) Hops). lia.
  - reflexivity.
  - reflexivity.
  - intros e' o Hlt. destruct (is_resumeFromState o) eqn:Ho; [reflexivity|].
    pose proof (step_completed_monotone o e' Ho). lia.
  - exists (snd (tick (Some 6000) 0 (start 1000 (createPomodoroTimer defaultSettings)))),
      5, focus, false, 0, 0.
    vm_compute. reflexivity.
Qed.

Lemma completedFocusSessions_monotone_witness :
  forallb (fun o => negb (is_resumeFromState o))
    [OpStart 1000; OpTick (Some 3000) 0; OpPause 3000; OpUpdateSettings autoSettings;
     OpStart 9000; OpTick (Some 14000) 0; OpSwitchMode focus; OpReset None] = true
  /\ completedFocusSessions (createPomodoroTimer defaultSettings)
     <= completedFocusSessions
          (run [OpStart 1000; OpTick (Some 3000) 0; OpPause 3000; OpUpdateSettings autoSettings;
                OpStart 9000; OpTick (Some 14000) 0; OpSwitchMode focus; OpReset None]
               (createPomodoroTimer defaultSettings)).
Proof.
  split; [reflexivity|].
  exact (proj1 (completedFocusSessions_monotone
    [OpStart 1000; OpTick (Some 3000) 0; OpPause 3000; OpUpdateSettings autoSettings;
     OpStart 9000; OpTick (Some 14000) 0; OpSwitchMode focus; OpReset None]
    (createPomodoroTimer defaultSettings) eq_refl)).
Defined.

(** ** Reaching zero through [pause] *)

(** C9: for a running engine whose elapsed whole seconds since
    [sessionStartTime] are at least [remainingAtStart], [pause] sets
    [remaining = 0] and [isRunning = false], clears the start time and
    leaves [completedFocusSessions], the mode and the settings unchanged;
    [tick] at the same instant would have returned [true] and, in [focus],
    incremented the counter. *)
Theorem pause_drains_without_completion (e : Engine) (t0 clock : Z) :
  isRunning e = true ->
  sessionStartTime e = Some t0 ->
  remainingAtStart e <= (clock - t0) / 1000 ->
  remaining (pause clock e) = 0
  /\ isRunning (pause clock e) = false
  /\ sessionStartTime (pause clock e) = None
  /\ completedFocusSessions (pause clock e) = completedFocusSessions e
  /\ currentMode (pause clock e) = currentMode e
  /\ settings (pause clock e) = settings e
  /\ fst (tick (Some clock) clock e) = true
  /\ (currentMode e = focus ->
      completedFocusSessions (snd (tick (Some clock) clock e))
      = completedFocusSessions e + 1).
Proof.
  intros Hrun Hs Hel.
  assert (Hc : candidateRemaining (default clock (Some clock)) e <= 0)
    by (unfold candidateRemaining; rewrite Hs; cbn; lia).
  rewrite (tick_completes _ _ _ Hrun Hc).
  unfold pause. rewrite Hrun, Hs. cbn.
  rewrite Z.max_l by lia.
  repeat split; try reflexivity.
  intros Hm. destruct (autoAdvance (settings e)); cbn; rewrite Hm; reflexivity.
Qed.

Lemma pause_drains_without_completion_witness :
  remainingAtStart (start 1000 (createPomodoroTimer autoSettings)) <= (9000 - 1000) / 1000
  /\ state (pause 9000 (start 1000 (createPomodoroTimer autoSettings)))
     = mkState focus 0 false 0
  /\ fst (tick (Some 9000) 9000 (start 1000 (createPomodoroTimer autoSettings))) = true.
Proof.
  assert (H : remainingAtStart (start 1000 (createPomodoroTimer autoSettings))
              <= (9000 - 1000) / 1000) by (vm_compute; discriminate).
  split; [exact H|].
  destruct (pause_drains_without_completion
              (start 1000 (createPomodoroTimer autoSettings)) 1000 9000
              eq_refl eq_refl H) as (H1 & H2 & _ & H4 & H5 & _ & H7 & _).
  split; [|exact H7].
  unfold state. rewrite H1, H2, H4, H5. reflexivity.
Defined.

(** ** A [tick] dated before the session start *)

(** C10 as stated fails for a running engine whose [remainingAtStart] is
    negative, which [resumeFromState] produces: restored with -10 seconds at
    5000 and ticked at 4999, the elapsed time is -1, the candidate -9 is not
    positive, and [tick] completes the session: it returns [true] and sets
    [remaining = 0], not -9. *)
Lemma tick_before_start_counterexample :
  isRunning (resumeFromState (-10) focus true 0 5000 (createPomodoroTimer defaultSettings)) = true
  /\ sessionStartTime
       (resumeFromState (-10) focus true 0 5000 (createPomodoroTimer defaultSettings))
     = Some 5000
  /\ 4999 < 5000
  /\ (4999 - 5000) / 1000 = -1
  /\ fst (tick (Some 4999) 4999
            (resumeFromState (-10) focus true 0 5000 (createPomodoroTimer defaultSettings)))
     = true
  /\ remaining (snd (tick (Some 4999) 4999
            (resumeFromState (-10) focus true 0 5000 (createPomodoroTimer defaultSettings))))
     = 0
  /\ remaining (snd (tick (Some 4999) 4999
            (resumeFromState (-10) focus true 0 5000 (createPomodoroTimer defaultSettings))))
     <> remainingAtStart
          (resumeFromState (-10) focus true 0 5000 (createPomodoroTimer defaultSettings))
        - (4999 - 5000) / 1000.
Proof.
  repeat split; try reflexivity. vm_compute. discriminate.
Qed.

(** C10 (amended): for every running engine with [remainingAtStart >= 0],
    [tick now] with [now] earlier than [sessionStartTime] computes a
    negative floored elapsed time, sets
    [remaining = remainingAtStart - floor ((now - sessionStartTime) / 1000)],
    which is greater than [remainingAtStart], changes nothing else and
    returns [false]. *)
Theorem tick_before_session_start (e : Engine) (now clock t0 : Z) :
  isRunning e = true ->
  sessionStartTime e = Some t0 ->
  now < t0 ->
  0 <= remainingAtStart e ->
  (now - t0) / 1000 < 0
  /\ tick (Some now) clock e
     = (false, set_remaining (remainingAtStart e - (now - t0) / 1000) e)
  /\ remaining (snd (tick (Some now) clock e)) = remainingAtStart e - (now - t0) / 1000
  /\ remainingAtStart e < remaining (snd (tick (Some now) clock e))
  /\ fst (tick (Some now) clock e) = false.
Proof.
  intros Hrun Hs Hlt Hras.
  pose proof (elapsed_negative t0 now Hlt) as Hel.
  assert (Hc : 0 < candidateRemaining (default clock (Some now)) e)
    by (unfold candidateRemaining; rewrite Hs; cbn; lia).
  rewrite (tick_counts_down _ _ _ _ Hrun Hs Hc). cbn.
  repeat split; try reflexivity; lia.
Qed.

Lemma tick_before_session_start_witness :
  0 <= remainingAtStart (start 5000 (createPomodoroTimer defaultSettings))
  /\ remaining (snd (tick (Some 1000) 0 (start 5000 (createPomodoroTimer defaultSettings))))
     = 5 - (1000 - 5000) / 1000.
Proof.
  assert (H : 0 <= remainingAtStart (start 5000 (createPomodoroTimer defaultSettings)))
    by (vm_compute; discriminate).
  split; [exact H|].
  refine (proj1 (proj2 (proj2
    (tick_before_session_start (start 5000 (createPomodoroTimer defaultSettings))
       1000 0 5000 eq_refl eq_refl _ H)))).
  lia.
Defined.

(** With a negative snapshot and a candidate that is not positive the same
    call completes the session instead. *)
Lemma tick_before_start_negative_snapshot (e : Engine) (now clock t0 : Z) :
  isRunning e = true ->
  sessionStartTime e = Some t0 ->
  remainingAtStart e - (now - t0) / 1000 <= 0 ->
  fst (tick (Some now) clock e) = true.
Proof.
  intros Hrun Hs Hc. apply tick_true_iff. split; [exact Hrun|].
  unfold candidateRemaining. rewrite Hs. exact Hc.
Qed.

(** ** The range of [remaining] along a sequence of calls *)

(** C5 as stated fails: [resumeFromState] stores its argument unchecked, so
    one call with -1 from the initial state of the tests leaves
    [remaining = -1], below 0. *)
Lemma remaining_range_counterexample :
  remaining (run [OpResumeFromState (-1) focus false 0 0]
                 (createPomodoroTimer defaultSettings)) = -1
  /\ ~ (0 <= remaining (run [OpResumeFromState (-1) focus false 0 0]
                            (createPomodoroTimer defaultSettings))
        <= duration_of
             (durations (settings (run [OpResumeFromState (-1) focus false 0 0]
                                       (createPomodoroTimer defaultSettings))))
             (currentMode (run [OpResumeFromState (-1) focus false 0 0]
                               (createPomodoroTimer defaultSettings)))).
Proof.
  split; [reflexivity|]. intros [H _]. vm_compute in H. apply H. reflexivity.
Qed.

(** The other calls that leave the range: a [tick] or a [pause] with a time
    before the session start, settings that shorten the current mode under
    a running session, and settings with a negative duration. *)
Example tick_before_start_leaves_range :
  state (run [OpStart 5000; OpTick (Some 1000) 0] (createPomodoroTimer defaultSettings))
  = mkState focus 9 true 0.
Proof. reflexivity. Qed.

Example pause_before_start_leaves_range :
  state (run [OpStart 5000; OpPause 1000] (createPomodoroTimer defaultSettings))
  = mkState focus 9 false 0.
Proof. reflexivity. Qed.

Example shortened_while_running_leaves_range :
  remaining (run [OpStart 0; OpUpdateSettings (mkSettings (mkDurations 1 2 3) false 2 false false)]
                 (createPomodoroTimer defaultSettings)) = 5
  /\ remaining_in_range
       (run [OpStart 0; OpUpdateSettings (mkSettings (mkDurations 1 2 3) false 2 false false)]
            (createPomodoroTimer defaultSettings)) = false.
Proof. split; reflexivity. Qed.

Example negative_duration_leaves_range :
  remaining (run [OpUpdateSettings (mkSettings (mkDurations (-4) 2 3) false 2 false false)]
                 (createPomodoroTimer defaultSettings)) = -4.
Proof. reflexivity. Qed.

Example negative_initial_duration_leaves_range :
  remaining (createPomodoroTimer (mkSettings (mkDurations (-5) 2 3) false 2 false false)) = -5.
Proof. reflexivity. Qed.

Lemma duration_of_nonneg (d : Durations) (m : PomodoroMode) :
  durations_nonneg d = true -> 0 <= duration_of d m.
Proof.
  unfold durations_nonneg. rewrite !andb_true_iff, !Z.leb_le.
  destruct m; cbn; lia.
Qed.

Lemma duration_of_copy (d : Durations) (m : PomodoroMode) :
  duration_of (mkDurations (dur_focus d) (dur_short_break d) (dur_long_break d)) m
  = duration_of d m.
Proof. destruct m; reflexivity. Qed.

Lemma range_invariant_init (initialSettings : TimerSettings) :
  durations_nonneg (durations initialSettings) = true ->
  range_invariant (createPomodoroTimer initialSettings).
Proof.
  intros Hd. unfold range_invariant. cbn.
  pose proof (duration_of_nonneg _ focus Hd). cbn in *. repeat split; try assumption; lia.
Qed.

Lemma range_invariant_switchMode (m : PomodoroMode) (e : Engine) :
  durations_nonneg (durations (settings e)) = true ->
  range_invariant (switchMode m e).
Proof.
  intros Hd. unfold range_invariant. cbn.
  pose proof (duration_of_nonneg _ m Hd). repeat split; try assumption; lia.
Qed.

Lemma range_invariant_completed (e : Engine) :
  range_invariant e -> range_invariant (completed_session e).
Proof.
  intros (Hd & Hr & Hras). unfold range_invariant, completed_session. cbn.
  repeat split; try assumption; try lia.
  destruct (sessionStartTime e); lia.
Qed.

Lemma range_invariant_tick (now : option Z) (clock : Z) (e : Engine) :
  range_invariant e ->
  not_before_start (default clock now) e = true ->
  range_invariant (snd (tick now clock e)).
Proof.
  intros Hinv Hnb.
  destruct (isRunning e) eqn:Hrun; [|rewrite tick_idle by assumption; exact Hinv].
  destruct (Z.le_gt_cases (candidateRemaining (default clock now) e) 0) as [Hc|Hc].
  - rewrite tick_completes by assumption. cbn [snd].
    pose proof (range_invariant_completed e Hinv) as Hcs.
    destruct (autoAdvance (settings e)); [|exact Hcs].
    apply range_invariant_switchMode. apply Hcs.
  - destruct Hinv as (Hd & Hr & Hras).
    unfold tick, candidateRemaining, not_before_start, range_invariant in *.
    rewrite Hrun. cbn [negb].
    destruct e as [st m r run sst ras c]; cbn in *.
    destruct sst as [t0|]; cbn in *.
    + apply Z.leb_le in Hnb. pose proof (elapsed_nonneg _ _ Hnb).
      destruct (Z.leb_spec (ras - (default clock now - t0) / 1000) 0); [lia|].
      cbn. repeat split; try assumption; lia.
    + assert (Hz : (default clock now - default clock now) / 1000 = 0)
        by (rewrite Z.sub_diag; reflexivity).
      rewrite Hz in *.
      destruct (Z.leb_spec (r - 0) 0); [lia|].
      cbn. repeat split; try assumption; lia.
Qed.

Lemma range_invariant_step (o : Op) (e : Engine) :
  range_invariant e ->
  call_in_domain e o = true ->
  range_invariant (step o e).
Proof.
  intros Hinv Hdom. destruct o; cbn [step call_in_domain] in *.
  - destruct Hinv as (Hd & Hr & Hras). unfold start, range_invariant.
    destruct (isRunning e); cbn; repeat split; try assumption; lia.
  - destruct Hinv as (Hd & Hr & Hras).
    unfold pause, not_before_start, range_invariant in *.
    destruct (isRunning e); cbn; [|repeat split; try assumption; lia].
    destruct (sessionStartTime e) as [t0|]; cbn; [|repeat split; try assumption; lia].
    apply Z.leb_le in Hdom. pose proof (elapsed_nonneg _ _ Hdom).
    repeat split; try assumption; lia.
  - apply (range_invariant_switchMode (default (currentMode e) mode)), Hinv.
  - apply range_invariant_switchMode, Hinv.
  - apply andb_true_iff in Hdom as [Hnew Hkeep].
    destruct Hinv as (Hd & Hr & Hras).
    unfold updateSettings, range_invariant, durations_nonneg in *. cbn.
    destruct (isRunning e); cbn in *; rewrite ?duration_of_copy.
    + apply Z.leb_le in Hkeep. repeat split; try assumption; lia.
    + pose proof (duration_of_nonneg _ (currentMode e) Hnew).
      repeat split; try assumption; lia.
  - apply range_invariant_tick; assumption.
  - apply andb_true_iff in Hdom as [H0 Hle].
    apply Z.leb_le in H0. apply Z.leb_le in Hle.
    destruct Hinv as (Hd & _). unfold range_invariant. cbn.
    repeat split; try assumption; lia.
Qed.

Lemma range_invariant_run (ops : list Op) (e : Engine) :
  range_invariant e ->
  calls_in_domain ops e = true ->
  range_invariant (run ops e).
Proof.
  revert e. induction ops as [|o ops IH]; intros e Hinv Hdom; cbn in *; [exact Hinv|].
  apply andb_true_iff in Hdom as [Ho Hops].
  apply IH; [apply range_invariant_step; assumption | exact Hops].
Qed.

(** C5 (amended): starting from the initial state for settings without a
    negative duration, after every finite sequence of [start], [pause],
    [reset], [switchMode], [updateSettings], [tick] and [resumeFromState]
    calls in which no [pause] or [tick] reads a time before the start of
    the running session, every [updateSettings] passes durations that are
    not negative and, under a running session, not below the current
    duration of the current mode, and every [resumeFromState] passes
    [0 <= remainingSeconds <= durations[mode]], the state satisfies
    [0 <= remaining <= durations[mode]] for the current settings and
    mode. *)
Theorem remaining_stays_in_range (initialSettings : TimerSettings) (ops : list Op) :
  durations_nonneg (durations initialSettings) = true ->
  calls_in_domain ops (createPomodoroTimer initialSettings) = true ->
  0 <= remaining (run ops (createPomodoroTimer initialSettings))
    <= duration_of (durations (settings (run ops (createPomodoroTimer initialSettings))))
                   (currentMode (run ops (createPomodoroTimer initialSettings))).
Proof.
  intros Hd Hdom.
  apply (range_invariant_run ops _ (range_invariant_init _ Hd) Hdom).
Qed.

Lemma remaining_stays_in_range_witness :
  durations_nonneg (durations defaultSettings) = true
  /\ calls_in_domain
       [OpStart 1000; OpTick (Some 3000) 0; OpPause 3500; OpUpdateSettings autoSettings;
        OpStart 9000; OpTick None 14000; OpResumeFromState 1 short_break true 1 20000;
        OpTick (Some 20500) 0; OpSwitchMode long_break; OpReset None]
       (createPomodoroTimer defaultSettings) = true
  /\ 0 <= remaining
       (run [OpStart 1000; OpTick (Some 3000) 0; OpPause 3500; OpUpdateSettings autoSettings;
             OpStart 9000; OpTick None 14000; OpResumeFromState 1 short_break true 1 20000;
             OpTick (Some 20500) 0; OpSwitchMode long_break; OpReset None]
            (createPomodoroTimer defaultSettings)) <= 3.
Proof.
  split; [reflexivity|]. split; [reflexivity|].
  exact (remaining_stays_in_range defaultSettings
    [OpStart 1000; OpTick (Some 3000) 0; OpPause 3500; OpUpdateSettings autoSettings;
     OpStart 9000; OpTick None 14000; OpResumeFromState 1 short_break true 1 20000;
     OpTick (Some 20500) 0; OpSwitchMode long_break; OpReset None]
    eq_refl eq_refl).
Defined.

(** ** [updateSettings] and the duration map *)

Lemma durations_obj_lookup (d : Durations) (m : PomodoroMode) :
  durations_obj d !! mode_key m = Some (duration_of d m).
Proof.
  unfold durations_obj. destruct m; cbn [mode_key duration_of].
  - apply lookup_insert_eq.
  - rewrite lookup_insert_ne by discriminate. apply lookup_insert_eq.
  - rewrite !lookup_insert_ne by discriminate. apply lookup_insert_eq.
Qed.

Lemma obj_duration_complete (s : TimerSettings) (m : PomodoroMode) :
  obj_duration (settings_obj s) m = Some (duration_of (durations s) m).
Proof. unfold obj_duration. cbn. apply durations_obj_lookup. Qed.

(** On the declared argument type the record-level [updateSettings] is the
    spread: every key comes from [newSettings]. *)
Lemma updateSettings_is_spread (newSettings : TimerSettings) (e : Engine) :
  settings_obj (settings (updateSettings newSettings e))
  = updateSettings_spread (settings_obj (settings e)) (settings_obj newSettings)
  /\ settings (updateSettings newSettings e) = newSettings.
Proof.
  unfold updateSettings. destruct newSettings as [[f s l] a n so no].
  destruct (isRunning e) eqn:Hrun; cbn; rewrite Hrun; cbn; split; reflexivity.
Qed.

(** C6 as stated fails: the update [{ durations: { focus: 10 } }] has no
    short-break duration, the settings of the tests have the short-break
    duration 2, and after the spread the short-break duration is missing
    instead of 2. *)
Lemma updateSettings_durations_counterexample :
  obj_duration focusOnlyUpdate short_break = None
  /\ obj_duration (settings_obj defaultSettings) short_break = Some 2
  /\ obj_duration (updateSettings_spread (settings_obj defaultSettings) focusOnlyUpdate)
                  short_break = None
  /\ obj_duration (updateSettings_spread (settings_obj defaultSettings) focusOnlyUpdate)
                  short_break
     <> obj_duration (settings_obj defaultSettings) short_break.
Proof.
  assert (H1 : obj_duration focusOnlyUpdate short_break = None).
  { unfold obj_duration, focusOnlyUpdate. cbn.
    rewrite lookup_insert_ne by discriminate. apply lookup_empty. }
  assert (H2 : obj_duration (settings_obj defaultSettings) short_break = Some 2)
    by apply obj_duration_complete.
  assert (H3 : obj_duration
                 (updateSettings_spread (settings_obj defaultSettings) focusOnlyUpdate)
                 short_break = None) by exact H1.
  split; [exact H1|]. split; [exact H2|]. split; [exact H3|].
  rewrite H3, H2. discriminate.
Qed.

(** C6 (amended): [updateSettings] merges the top-level values of the
    update into the existing settings, a key missing from the update
    keeping its previous value, and replaces the duration map by a copy of
    the update's duration map: after the call the duration of every mode is
    the one the update gives, and a mode whose duration is not present in
    the update has no duration.  The durations that were there before do
    not matter. *)
Theorem updateSettings_replaces_durations
    (settings newSettings : SettingsObj) (m : PomodoroMode) :
  obj_duration (updateSettings_spread settings newSettings) m
    = obj_duration newSettings m
  /\ obj_autoAdvance (updateSettings_spread settings newSettings)
     = spread_prop (obj_autoAdvance settings) (obj_autoAdvance newSettings)
  /\ obj_longBreakInterval (updateSettings_spread settings newSettings)
     = spread_prop (obj_longBreakInterval settings) (obj_longBreakInterval newSettings)
  /\ obj_soundEnabled (updateSettings_spread settings newSettings)
     = spread_prop (obj_soundEnabled settings) (obj_soundEnabled newSettings)
  /\ obj_notificationsEnabled (updateSettings_spread settings newSettings)
     = spread_prop (obj_notificationsEnabled settings)
                   (obj_notificationsEnabled newSettings)
  /\ (forall other : SettingsObj,
        obj_duration (updateSettings_spread other newSettings) m
        = obj_duration (updateSettings_spread settings newSettings) m).
Proof.
  assert (H : forall s : SettingsObj,
             obj_duration (updateSettings_spread s newSettings) m
             = obj_duration newSettings m).
  { intros s. unfold obj_duration, updateSettings_spread, spread_copy. cbn.
    destruct (obj_durations newSettings) as [d|]; cbn; [reflexivity|].
    apply lookup_empty. }
  split; [apply H|].
  do 4 (split; [reflexivity|]).
  intros other. rewrite !H. reflexivity.
Qed.

(** With a complete argument, as [usePomodoroTimer] passes after merging
    the durations itself, every duration is the argument's. *)
Lemma updateSettings_complete_durations
    (newSettings : TimerSettings) (e : Engine) (m : PomodoroMode) :
  duration_of (durations (settings (updateSettings newSettings e))) m
  = duration_of (durations newSettings) m.
Proof.
  destruct (updateSettings_is_spread newSettings e) as [_ H]. rewrite H. reflexivity.
Qed.

(** When the timer is not running the remaining time is recomputed from the
    new duration; a running countdown is left as it is. *)
Lemma updateSettings_remaining (newSettings : TimerSettings) (e : Engine) :
  remaining (updateSettings newSettings e)
  = if isRunning e then remaining e
    else duration_of (durations newSettings) (currentMode e).
Proof.
  unfold updateSettings. cbn. destruct (isRunning e); cbn; [reflexivity|].
  apply duration_of_copy.
Qed.

(** * Further properties of the engine *)

(** ** The running flag and the start time *)

Lemma session_started_step (o : Op) (e : Engine) :
  isRunning e = session_started e ->
  isRunning (step o e) = session_started (step o e).
Proof.
  intros Hinv. destruct o; cbn [step].
  - unfold start. destruct (isRunning e) eqn:Hrun; [rewrite Hrun; exact Hinv|reflexivity].
  - unfold pause. destruct (isRunning e) eqn:Hrun; cbn [negb]; [|rewrite Hrun; exact Hinv].
    destruct (sessionStartTime e); reflexivity.
  - reflexivity.
  - reflexivity.
  - unfold updateSettings, session_started in *. cbn.
    destruct (isRunning e) eqn:Hrun; cbn; rewrite ?Hrun; exact Hinv.
  - destruct (isRunning e) eqn:Hrun; [|rewrite tick_idle by assumption; cbn; congruence].
    destruct (Z.le_gt_cases (candidateRemaining (default clock now) e) 0) as [Hc|Hc].
    + rewrite tick_completes by assumption. cbn [snd].
      destruct (autoAdvance (settings e)); reflexivity.
    + unfold session_started in Hinv.
      destruct (sessionStartTime e) as [t0|] eqn:Hs; [|discriminate Hinv].
      rewrite (tick_counts_down _ _ _ t0 Hrun Hs Hc). cbn [snd].
      unfold session_started. cbn. rewrite Hs. exact Hrun.
  - unfold resumeFromState, session_started. cbn. destruct running; reflexivity.
Qed.

(** X1: from the initial state, after every sequence of calls with any
    arguments, the timer is running exactly when a session start time is
    recorded. *)
Theorem running_iff_session_started (initialSettings : TimerSettings) (ops : list Op) :
  isRunning (run ops (createPomodoroTimer initialSettings))
  = session_started (run ops (createPomodoroTimer initialSettings)).
Proof.
  assert (H : forall e, isRunning e = session_started e ->
                        isRunning (run ops e) = session_started (run ops e)).
  { induction ops as [|o ops IH]; intros e He; cbn; [exact He|].
    apply IH, session_started_step, He. }
  apply H. reflexivity.
Qed.

(** ** Independence from the call frequency *)

Lemma tick_set_remaining (now : option Z) (clock v t0 : Z) (e : Engine) :
  isRunning e = true ->
  sessionStartTime e = Some t0 ->
  tick now clock (set_remaining v e) = tick now clock e.
Proof.
  intros Hrun Hs. unfold tick. destruct e as [st m r run sst ras c]; cbn in *.
  subst sst run. cbn.
  destruct (ras - (default clock now - t0) / 1000 <=? 0); cbn; [|reflexivity].
  destruct (mode_eqb m focus); cbn; reflexivity.
Qed.

Lemma candidateRemaining_set_remaining (n v t0 : Z) (e : Engine) :
  sessionStartTime e = Some t0 ->
  candidateRemaining n (set_remaining v e) = candidateRemaining n e.
Proof. intros Hs. unfold candidateRemaining. cbn. rewrite Hs. reflexivity. Qed.

(** X2: the result of a [tick] does not depend on the [tick]s before it:
    for a running session, after any burst of earlier [tick]s that did not
    complete the session, [tick now] returns the same value and leaves the
    same engine as [tick now] called directly. *)
Theorem tick_ignores_earlier_ticks (e : Engine) (nows : list Z) (now : option Z)
    (clock t0 : Z) :
  isRunning e = true ->
  sessionStartTime e = Some t0 ->
  forallb (fun n => 0 <? candidateRemaining n e) nows = true ->
  tick now clock (ticks clock nows e) = tick now clock e.
Proof.
  intros Hrun Hs. unfold ticks.
  assert (H : forall v,
    forallb (fun n => 0 <? candidateRemaining n e) nows = true ->
    tick now clock (run (map (fun n => OpTick (Some n) clock) nows) (set_remaining v e))
    = tick now clock e).
  { induction nows as [|n nows IH]; intros v Hall; cbn in *.
    - apply (tick_set_remaining _ _ _ t0); assumption.
    - apply andb_true_iff in Hall as [Hn Hall]. apply Z.ltb_lt in Hn.
      rewrite (tick_counts_down (Some n) clock (set_remaining v e) t0).
      + cbn [snd]. apply (IH (remainingAtStart e - (n - t0) / 1000) Hall).
      + exact Hrun.
      + exact Hs.
      + rewrite (candidateRemaining_set_remaining _ _ t0) by exact Hs. exact Hn. }
  intros Hall. destruct e as [st m r run sst ras c]. apply (H r Hall).
Qed.

Lemma tick_ignores_earlier_ticks_witness :
  forallb (fun n => 0 <? candidateRemaining n (start 1000 (createPomodoroTimer autoSettings)))
          [1500; 4999; 2000; 1000] = true
  /\ tick (Some 6000) 0
        (ticks 0 [1500; 4999; 2000; 1000] (start 1000 (createPomodoroTimer autoSettings)))
     = tick (Some 6000) 0 (start 1000 (createPomodoroTimer autoSettings)).
Proof.
  split; [reflexivity|].
  exact (tick_ignores_earlier_ticks (start 1000 (createPomodoroTimer autoSettings))
           [1500; 4999; 2000; 1000] (Some 6000) 0 1000 eq_refl eq_refl eq_refl).
Defined.

(** ** Starting again at zero *)

(** X3: an idle engine with nothing remaining (as after a completion
    without [autoAdvance]) completes again on the first [tick] after
    [start], however little time has passed; in [focus] this counts one
    more completed focus session. *)
Theorem start_at_zero_completes_again (e : Engine) (t now clock : Z) :
  isRunning e = false ->
  remaining e <= 0 ->
  t <= now ->
  fst (tick (Some now) clock (start t e)) = true
  /\ isRunning (snd (tick (Some now) clock (start t e))) = false
  /\ completedFocusSessions (snd (tick (Some now) clock (start t e)))
     = if mode_eqb (currentMode e) focus
       then completedFocusSessions e + 1
       else completedFocusSessions e.
Proof.
  intros Hidle Hrem Hle.
  pose proof (elapsed_nonneg t now Hle) as Hel.
  assert (Hrun : isRunning (start t e) = true)
    by (unfold start; rewrite Hidle; reflexivity).
  assert (Hc : candidateRemaining (default clock (Some now)) (start t e) <= 0).
  { unfold candidateRemaining, start. rewrite Hidle. cbn. lia. }
  rewrite (tick_completes _ _ _ Hrun Hc). cbn [fst snd].
  unfold start. rewrite Hidle. cbn.
  destruct (autoAdvance (settings e)); cbn; repeat split; reflexivity.
Qed.

Lemma start_at_zero_completes_again_witness :
  remaining (snd (tick (Some 6000) 0 (start 1000 (createPomodoroTimer defaultSettings)))) <= 0
  /\ completedFocusSessions
       (snd (tick (Some 7000) 0
          (start 7000 (snd (tick (Some 6000) 0
                              (start 1000 (createPomodoroTimer defaultSettings))))))) = 2.
Proof.
  assert (H : remaining (snd (tick (Some 6000) 0
                (start 1000 (createPomodoroTimer defaultSettings)))) <= 0)
    by (vm_compute; discriminate).
  split; [exact H|].
  refine (proj2 (proj2 (start_at_zero_completes_again
    (snd (tick (Some 6000) 0 (start 1000 (createPomodoroTimer defaultSettings))))
    7000 7000 0 eq_refl H _))).
  lia.
Defined.

(** ** Settings changed under a paused or a running session *)

(** X4: on a paused timer (not running, no start time recorded)
    [updateSettings] acts as a [reset] under the new settings: [remaining]
    becomes the full new duration of the current mode whatever was left,
    also when the new settings equal the old ones. *)
Theorem updateSettings_idle_is_reset (newSettings : TimerSettings) (e : Engine) :
  isRunning e = false ->
  sessionStartTime e = None ->
  updateSettings newSettings e = reset None (set_settings newSettings e)
  /\ remaining (updateSettings newSettings e)
     = duration_of (durations newSettings) (currentMode e)
  /\ updateSettings (settings e) e = reset None e.
Proof.
  intros Hidle Hs.
  assert (H : forall ns, updateSettings ns e = reset None (set_settings ns e)).
  { intros ns. unfold updateSettings, reset.
    destruct e as [st m r run sst ras c]; cbn in *. subst run sst.
    destruct ns as [[f s l] a n so no]; cbn. reflexivity. }
  split; [apply H|]. split; [rewrite H; reflexivity|].
  rewrite H. destruct e; reflexivity.
Qed.

Lemma updateSettings_idle_is_reset_witness :
  remaining (pause 3000 (start 1000 (createPomodoroTimer defaultSettings))) = 3
  /\ remaining (updateSettings defaultSettings
                  (pause 3000 (start 1000 (createPomodoroTimer defaultSettings)))) = 5.
Proof.
  split; [reflexivity|].
  exact (proj1 (proj2 (updateSettings_idle_is_reset defaultSettings
           (pause 3000 (start 1000 (createPomodoroTimer defaultSettings)))
           eq_refl eq_refl))).
Defined.

(** X5: under a running session [updateSettings] changes the settings
    only: mode, remaining time, counter, start time and snapshot stay, the
    next [tick] returns the same value as without the update, and when it
    does not complete the session it shows the same state. *)
Theorem updateSettings_running_undisturbed
    (newSettings : TimerSettings) (e : Engine) (now : option Z) (clock : Z) :
  isRunning e = true ->
  state (updateSettings newSettings e) = state e
  /\ sessionStartTime (updateSettings newSettings e) = sessionStartTime e
  /\ remainingAtStart (updateSettings newSettings e) = remainingAtStart e
  /\ settings (updateSettings newSettings e) = newSettings
  /\ fst (tick now clock (updateSettings newSettings e)) = fst (tick now clock e)
  /\ (fst (tick now clock e) = false ->
      state (snd (tick now clock (updateSettings newSettings e)))
      = state (snd (tick now clock e))).
Proof.
  intros Hrun.
  destruct e as [st m r run sst ras c]; cbn in *. subst run.
  destruct newSettings as [[f s l] a n so no].
  unfold updateSettings, tick; cbn.
  do 4 (split; [reflexivity|]).
  destruct sst as [t0|]; cbn.
  - destruct (ras - (default clock now - t0) / 1000 <=? 0); cbn;
      (split; [reflexivity|]); intros H; [discriminate H|reflexivity].
  - destruct (r - (default clock now - default clock now) / 1000 <=? 0); cbn;
      (split; [reflexivity|]); intros H; [discriminate H|reflexivity].
Qed.

Lemma updateSettings_running_undisturbed_witness :
  state (snd (tick (Some 3000) 0
                (updateSettings (mkSettings (mkDurations 1 1 1) true 1 true true)
                   (start 1000 (createPomodoroTimer defaultSettings)))))
  = mkState focus 3 true 0.
Proof.
  pose proof (proj2 (proj2 (proj2 (proj2 (proj2
    (updateSettings_running_undisturbed (mkSettings (mkDurations 1 1 1) true 1 true true)
       (start 1000 (createPomodoroTimer defaultSettings)) (Some 3000) 0 eq_refl)))))) as H.
  exact (H eq_refl).
Defined.

(** ** Long breaks switched off *)

(** X6: with [autoAdvance] set and a [longBreakInterval] that is zero or
    negative, a completed focus session always leads to [short_break] and a
    completed break to [focus]: the engine never enters [long_break] by
    itself. *)
Theorem no_long_break_without_interval (e : Engine) (now : option Z) (clock : Z) :
  autoAdvance (settings e) = true ->
  longBreakInterval (settings e) <= 0 ->
  isRunning e = true ->
  candidateRemaining (default clock now) e <= 0 ->
  currentMode (snd (tick now clock e))
  = if mode_eqb (currentMode e) focus then short_break else focus.
Proof.
  intros Hauto Hn Hrun Hc.
  rewrite (tick_completes _ _ _ Hrun Hc), Hauto. cbn.
  unfold nextMode. cbn.
  destruct (mode_eqb (currentMode e) focus); [|reflexivity].
  destruct (Z.ltb_spec 0 (longBreakInterval (settings e))); [lia|reflexivity].
Qed.

Lemma no_long_break_without_interval_witness :
  currentMode (snd (tick (Some 9000) 0
     (start 1000 (createPomodoroTimer (mkSettings (mkDurations 5 2 3) true 0 false false)))))
  = short_break.
Proof.
  refine (no_long_break_without_interval
    (start 1000 (createPomodoroTimer (mkSettings (mkDurations 5 2 3) true 0 false false)))
    (Some 9000) 0 eq_refl _ eq_refl _).
  - cbn. lia.
  - vm_compute. discriminate.
Defined.

(** ** The cycle of sessions under [autoAdvance] *)

Lemma runSession_idle (t : Z) (e : Engine) :
  isRunning e = false ->
  runSession t e
  = if autoAdvance (settings e)
    then switchMode (nextMode (completed_session (start t e)))
                    (completed_session (start t e))
    else completed_session (start t e).
Proof.
  intros Hidle. unfold runSession.
  assert (Hrun : isRunning (start t e) = true)
    by (unfold start; rewrite Hidle; reflexivity).
  assert (Hc : candidateRemaining (default t (Some (t + remaining e * 1000)))
                 (start t e) <= 0).
  { unfold candidateRemaining, start. rewrite Hidle. cbn.
    rewrite elapsed_whole_seconds. lia. }
  rewrite (tick_completes _ _ _ Hrun Hc). cbn [snd].
  unfold start. rewrite Hidle. reflexivity.
Qed.

Lemma div2_succ (j : nat) :
  Nat.div2 (S j) = if Nat.even j then Nat.div2 j else S (Nat.div2 j).
Proof.
  assert (H : (Nat.div2 (S j) = if Nat.even j then Nat.div2 j else S (Nat.div2 j))
              /\ (Nat.div2 (S (S j))
                  = if Nat.even (S j) then Nat.div2 (S j) else S (Nat.div2 (S j)))).
  { induction j as [|j [IH1 IH2]]; [split; reflexivity|].
    split; [exact IH2|].
    change (Nat.even (S (S j))) with (Nat.even j).
    change (Nat.div2 (S (S (S j)))) with (S (Nat.div2 (S j))).
    change (Nat.div2 (S (S j))) with (S (Nat.div2 j)).
    rewrite IH1. destruct (Nat.even j); reflexivity. }
  apply H.
Qed.

Section Cycle.

Variable s : TimerSettings.
Variable n : Z.
Hypothesis s_autoAdvance : autoAdvance s = true.
Hypothesis s_interval : longBreakInterval s = n.
Hypothesis n_positive : 0 < n.

Lemma between_sessions_next (t : Z) (j : nat) (e : Engine) :
  between_sessions s n j e -> between_sessions s n (S j) (runSession t e).
Proof using s_autoAdvance s_interval n_positive.
  intros (Hs & Hidle & Hc & Hm & Hr).
  rewrite (runSession_idle t e Hidle), Hs, s_autoAdvance.
  unfold between_sessions, cycle_mode in *.
  change (Nat.div2 (S (S j))) with (S (Nat.div2 j)).
  rewrite div2_succ in Hc.
  rewrite Nat.even_succ. unfold Nat.odd.
  destruct e as [st m r run sst ras c]; cbn in *. subst st run.
  unfold nextMode; cbn. rewrite s_interval.
  destruct (Nat.even j); cbn [negb] in *.
  - subst m. cbn.
    destruct (Z.ltb_spec 0 n) as [_|]; [|lia]. cbn.
    repeat split; try reflexivity; try lia.
  - assert (Hbreak : mode_eqb m focus = false)
      by (subst m; destruct (Z.rem c n =? 0); reflexivity).
    rewrite Hbreak. cbn. repeat split; try reflexivity; lia.
Qed.

Lemma between_sessions_run (ts : list Z) (j : nat) (e : Engine) :
  between_sessions s n j e ->
  between_sessions s n (length ts + j) (runSessions ts e).
Proof using s_autoAdvance s_interval n_positive.
  revert j e. induction ts as [|t ts IH]; intros j e He; cbn [runSessions length].
  - exact He.
  - replace (S (length ts) + j)%nat with (length ts + S j)%nat by lia.
    apply IH, between_sessions_next, He.
Qed.

(** X7: with [autoAdvance] set and [longBreakInterval = n > 0], after
    [j] whole sessions from the initial state (each one a [start] and a
    [tick] once the remaining time has passed) the timer is stopped with
    the full duration of its mode, the counter of completed focus
    sessions is [j/2] rounded up, and the mode is [focus] when [j] is
    even and otherwise [long_break] when [n] divides the counter and
    [short_break] when it does not. *)
Theorem pomodoro_cycle (ts : list Z) :
  isRunning (runSessions ts (createPomodoroTimer s)) = false
  /\ completedFocusSessions (runSessions ts (createPomodoroTimer s))
     = Z.of_nat (Nat.div2 (S (length ts)))
  /\ currentMode (runSessions ts (createPomodoroTimer s))
     = cycle_mode n (length ts)
         (completedFocusSessions (runSessions ts (createPomodoroTimer s)))
  /\ remaining (runSessions ts (createPomodoroTimer s))
     = duration_of (durations s) (currentMode (runSessions ts (createPomodoroTimer s))).
Proof using s_autoAdvance s_interval n_positive.
  assert (H0 : between_sessions s n 0 (createPomodoroTimer s))
    by (repeat split; reflexivity).
  pose proof (between_sessions_run ts 0%nat _ H0) as H.
  rewrite Nat.add_0_r in H. destruct H as (_ & H1 & H2 & H3 & H4).
  repeat split; assumption.
Qed.

End Cycle.

Lemma pomodoro_cycle_witness :
  state (runSessions [1000; 10000; 20000; 30000; 40000] (createPomodoroTimer autoSettings))
  = mkState short_break 2 false 3.
Proof.
  destruct (pomodoro_cycle autoSettings 2 eq_refl eq_refl eq_refl
              [1000; 10000; 20000; 30000; 40000]) as (H1 & H2 & H3 & H4).
  unfold state. rewrite H4, H3, H2, H1. reflexivity.
Defined.

(** * Properties of the hook *)

(** ** Persisting and restoring the timer *)

Lemma ceil_seconds_end (t t' r : Z) :
  ceil_seconds (t + r * 1000 - t') = r - (t' - t) / 1000.
Proof.
  unfold ceil_seconds.
  replace (- (t + r * 1000 - t')) with (t' - t + (- r) * 1000) by lia.
  rewrite Z.div_add by lia. lia.
Qed.

Lemma restore_running (e e0 : Engine) (t t' clock' : Z) :
  isRunning e = true ->
  t + remaining e * 1000 <> 0 ->
  restoreTimerState (Some (persistedTimerState t e)) t' clock' e0
  = resumeFromState (Z.max 0 (remaining e - (t' - t) / 1000)) (currentMode e)
      (0 <? remaining e - (t' - t) / 1000) (completedFocusSessions e) clock' e0.
Proof.
  intros Hrun Hend. unfold restoreTimerState, persistedTimerState. cbn.
  rewrite Hrun. cbn.
  destruct (Z.eqb_spec (t + remaining e * 1000) 0) as [H|_]; [contradiction|].
  rewrite ceil_seconds_end.
  destruct (Z.ltb_spec 0 (remaining e - (t' - t) / 1000)) as [H|H].
  - rewrite Z.max_r by lia. destruct (Z.ltb_spec 0 (remaining e - (t' - t) / 1000)); [|lia].
    reflexivity.
  - rewrite Z.max_l by lia. reflexivity.
Qed.

(** X8: a running timer persisted at time [t] and restored at time [t']
    comes back in the same mode with the same counter and with the
    remaining time it had when persisted minus the whole seconds between
    [t] and [t'], floored at zero; it is running exactly when that is
    positive.  (The stored end time must not be 0, which the hook takes
    for a missing one.) *)
Theorem restore_running_session (e e0 : Engine) (t t' clock' : Z) :
  isRunning e = true ->
  t + remaining e * 1000 <> 0 ->
  remaining (restoreTimerState (Some (persistedTimerState t e)) t' clock' e0)
  = Z.max 0 (remaining e - (t' - t) / 1000)
  /\ isRunning (restoreTimerState (Some (persistedTimerState t e)) t' clock' e0)
     = (0 <? remaining e - (t' - t) / 1000)
  /\ currentMode (restoreTimerState (Some (persistedTimerState t e)) t' clock' e0)
     = currentMode e
  /\ completedFocusSessions
       (restoreTimerState (Some (persistedTimerState t e)) t' clock' e0)
     = completedFocusSessions e
  /\ settings (restoreTimerState (Some (persistedTimerState t e)) t' clock' e0)
     = settings e0.
Proof.
  intros Hrun Hend. rewrite (restore_running e e0 t t' clock' Hrun Hend).
  repeat split.
Qed.

Lemma restore_running_session_witness :
  3000 + remaining (snd (tick (Some 3000) 0 (start 1000 (createPomodoroTimer defaultSettings))))
         * 1000 <> 0
  /\ remaining (restoreTimerState
        (Some (persistedTimerState 3000
           (snd (tick (Some 3000) 0 (start 1000 (createPomodoroTimer defaultSettings))))))
        4500 4501 (createPomodoroTimer defaultSettings))
     = Z.max 0 (3 - (4500 - 3000) / 1000).
Proof.
  assert (H : 3000 + remaining (snd (tick (Some 3000) 0
                (start 1000 (createPomodoroTimer defaultSettings)))) * 1000 <> 0)
    by (vm_compute; discriminate).
  split; [exact H|].
  exact (proj1 (restore_running_session
    (snd (tick (Some 3000) 0 (start 1000 (createPomodoroTimer defaultSettings))))
    (createPomodoroTimer defaultSettings) 3000 4500 4501 eq_refl H)).
Defined.

(** X9: when the stored end time has passed at the restore, the timer comes
    back stopped at zero in the same mode with the same counter: the
    session that ran out while the page was closed is not counted and the
    mode is not advanced, whatever [autoAdvance] says. *)
Theorem restore_after_expiry (e e0 : Engine) (t t' clock' : Z) :
  isRunning e = true ->
  t + remaining e * 1000 <> 0 ->
  t + remaining e * 1000 <= t' ->
  state (restoreTimerState (Some (persistedTimerState t e)) t' clock' e0)
  = mkState (currentMode e) 0 false (completedFocusSessions e)
  /\ sessionStartTime (restoreTimerState (Some (persistedTimerState t e)) t' clock' e0)
     = None.
Proof.
  intros Hrun Hend Hpast. rewrite (restore_running e e0 t t' clock' Hrun Hend).
  assert (Hel : remaining e <= (t' - t) / 1000)
    by (apply Z.div_le_lower_bound; lia).
  unfold state, resumeFromState. cbn.
  rewrite Z.max_l by lia.
  destruct (Z.ltb_spec 0 (remaining e - (t' - t) / 1000)); [lia|].
  split; reflexivity.
Qed.

Lemma restore_after_expiry_witness :
  1000 + remaining (start 1000 (createPomodoroTimer autoSettings)) * 1000 <= 60000
  /\ state (restoreTimerState
        (Some (persistedTimerState 1000 (start 1000 (createPomodoroTimer autoSettings))))
        60000 60000 (createPomodoroTimer autoSettings))
     = mkState focus 0 false 0.
Proof.
  assert (H1 : 1000 + remaining (start 1000 (createPomodoroTimer autoSettings)) * 1000 <> 0)
    by (vm_compute; discriminate).
  assert (H2 : 1000 + remaining (start 1000 (createPomodoroTimer autoSettings)) * 1000
               <= 60000) by (vm_compute; discriminate).
  split; [exact H2|].
  exact (proj1 (restore_after_expiry (start 1000 (createPomodoroTimer autoSettings))
    (createPomodoroTimer autoSettings) 1000 60000 60000 eq_refl H1 H2)).
Defined.

(** X10: a paused timer is persisted without its remaining time, and the
    restore gives it the full duration of its mode under the settings of
    the restoring engine (or 0 for a negative duration): the progress made
    before the pause is gone. *)
Theorem restore_paused_loses_progress (e e0 : Engine) (t t' clock' : Z) :
  isRunning e = false ->
  ps_endTimestamp (persistedTimerState t e) = None
  /\ state (restoreTimerState (Some (persistedTimerState t e)) t' clock' e0)
     = mkState (currentMode e)
               (Z.max 0 (duration_of (durations (settings e0)) (currentMode e)))
               false (completedFocusSessions e)
  /\ (forall e1 : Engine,
        isRunning e1 = false ->
        currentMode e1 = currentMode e ->
        remaining (restoreTimerState (Some (persistedTimerState t e1)) t' clock' e0)
        = remaining (restoreTimerState (Some (persistedTimerState t e)) t' clock' e0)).
Proof.
  intros Hidle.
  assert (H : forall e1, isRunning e1 = false ->
    restoreTimerState (Some (persistedTimerState t e1)) t' clock' e0
    = resumeFromState (Z.max 0 (duration_of (durations (settings e0)) (currentMode e1)))
        (currentMode e1) false (completedFocusSessions e1) clock' e0).
  { intros e1 H1. unfold restoreTimerState, persistedTimerState. cbn. rewrite H1. reflexivity. }
  split; [unfold persistedTimerState; cbn; rewrite Hidle; reflexivity|].
  split; [rewrite (H e Hidle); reflexivity|].
  intros e1 H1 Hm. rewrite (H e Hidle), (H e1 H1), Hm. reflexivity.
Qed.

Lemma restore_paused_loses_progress_witness :
  remaining (pause 4000 (start 1000 (createPomodoroTimer defaultSettings))) = 2
  /\ state (restoreTimerState
        (Some (persistedTimerState 4000
                 (pause 4000 (start 1000 (createPomodoroTimer defaultSettings)))))
        4001 4001 (createPomodoroTimer defaultSettings))
     = mkState focus 5 false 0.
Proof.
  split; [reflexivity|].
  exact (proj1 (proj2 (restore_paused_loses_progress
    (pause 4000 (start 1000 (createPomodoroTimer defaultSettings)))
    (createPomodoroTimer defaultSettings) 4000 4001 4001 eq_refl))).
Defined.

(** X11: whatever record is restored, at whatever time and into whatever
    engine, the restored timer has a remaining time that is not negative
    and equal to its start snapshot, runs only with a positive remaining
    time, and records a start time exactly when it runs. *)
Theorem restore_is_well_formed (ts : TimerPersistedState) (clock clock' : Z) (e0 : Engine) :
  0 <= remaining (restoreTimerState (Some ts) clock clock' e0)
  /\ remainingAtStart (restoreTimerState (Some ts) clock clock' e0)
     = remaining (restoreTimerState (Some ts) clock clock' e0)
  /\ isRunning (restoreTimerState (Some ts) clock clock' e0)
     = ps_isRunning ts && (0 <? remaining (restoreTimerState (Some ts) clock clock' e0))
  /\ isRunning (restoreTimerState (Some ts) clock clock' e0)
     = session_started (restoreTimerState (Some ts) clock clock' e0)
  /\ currentMode (restoreTimerState (Some ts) clock clock' e0) = ps_mode ts
  /\ completedFocusSessions (restoreTimerState (Some ts) clock clock' e0)
     = ps_completedFocusSessions ts.
Proof.
  unfold restoreTimerState, resumeFromState, session_started. cbn.
  set (r := match ps_isRunning ts with
            | true => _
            | false => _
            end).
  assert (Hr : 0 <= r).
  { subst r. destruct (ps_isRunning ts); [|lia].
    destruct (ps_endTimestamp ts) as [endT|]; [|lia].
    destruct (endT =? 0); [lia|].
    destruct (Z.ltb_spec 0 (ceil_seconds (endT - clock))); lia. }
  split; [exact Hr|]. do 2 (split; [reflexivity|]).
  split; [|split; reflexivity].
  destruct (ps_isRunning ts && (0 <? r)); reflexivity.
Qed.

(** ** Completed sessions: tasks and the session log *)

(** The tasks after the active one was credited with a session at [now]. *)
Lemma sessionCompleteUpdater_counts (wasFocus : bool) (now : Z) (mode : PomodoroMode)
    (duration : Z) (newId : string) (prev : StorageSchema) :
  map task_completed (tasks (sessionCompleteUpdater wasFocus now mode duration newId prev))
  = map (fun t => task_completed t
                  + if wasFocus && truthy_id (activeTaskId prev)
                       && is_active (activeTaskId prev) t
                    then 1 else 0)
        (tasks prev).
Proof.
  unfold sessionCompleteUpdater. cbn.
  destruct (wasFocus && truthy_id (activeTaskId prev)); cbn.
  - rewrite map_map. apply map_ext. intros t.
    destruct (is_active (activeTaskId prev) t); cbn; lia.
  - apply map_ext. intros t. lia.
Qed.

(** X12: the update queued for a completed session keeps every task and
    its identifier in place, adds one to the completed count of the tasks
    with the active identifier when a focus session is reported and an
    active task is set, and nothing otherwise; it appends exactly one entry
    to the session log and leaves the active task, the settings and the
    persisted timer state as they were. *)
Theorem sessionCompleteUpdater_frame (wasFocus : bool) (now : Z) (mode : PomodoroMode)
    (duration : Z) (newId : string) (prev : StorageSchema) :
  map task_id (tasks (sessionCompleteUpdater wasFocus now mode duration newId prev))
  = map task_id (tasks prev)
  /\ map task_completed (tasks (sessionCompleteUpdater wasFocus now mode duration newId prev))
     = map (fun t => task_completed t
                     + if wasFocus && truthy_id (activeTaskId prev)
                          && is_active (activeTaskId prev) t
                       then 1 else 0)
           (tasks prev)
  /\ (exists entry,
        sessionLogs (sessionCompleteUpdater wasFocus now mode duration newId prev)
        = sessionLogs prev ++ [entry]
        /\ log_id entry = newId /\ log_timestamp entry = now
        /\ log_mode entry = mode /\ log_duration entry = duration
        /\ log_taskId entry = if wasFocus then activeTaskId prev else None)
  /\ activeTaskId (sessionCompleteUpdater wasFocus now mode duration newId prev)
     = activeTaskId prev
  /\ timerSettings (sessionCompleteUpdater wasFocus now mode duration newId prev)
     = timerSettings prev
  /\ timerState (sessionCompleteUpdater wasFocus now mode duration newId prev)
     = timerState prev.
Proof.
  split; [|split; [apply sessionCompleteUpdater_counts|]].
  - unfold sessionCompleteUpdater. cbn.
    destruct (wasFocus && truthy_id (activeTaskId prev)); [|reflexivity].
    rewrite map_map. apply map_ext. intros t.
    destruct (is_active (activeTaskId prev) t); reflexivity.
  - split; [|repeat split].
    eexists. split; [reflexivity|]. repeat split.
Qed.

Lemma mode_after_autoAdvance (e : Engine) :
  mode_eqb (nextMode (completed_session e)) focus = negb (mode_eqb (currentMode e) focus).
Proof.
  unfold nextMode. cbn. destruct (mode_eqb (currentMode e) focus); cbn; [|reflexivity].
  destruct ((0 <? longBreakInterval (settings e))
            && (Z.rem (completedFocusSessions e + 1) (longBreakInterval (settings e)) =? 0));
    reflexivity.
Qed.

Lemma intervalCallback_completed (handlerSettings : TimerSettings)
    (clock clockHandler clockPersist : Z) (newId : string)
    (hs : StorageSchema) (e : Engine) :
  isRunning e = true ->
  candidateRemaining clock e <= 0 ->
  fst (intervalCallback handlerSettings clock clockHandler clockPersist newId hs e)
  = updatePersistedTimerState clockPersist (snd (tick None clock e))
      (sessionCompleteUpdater
         (if autoAdvance (settings e)
          then negb (mode_eqb (currentMode e) focus)
          else mode_eqb (currentMode e) focus)
         clockHandler
         (currentMode (snd (tick None clock e)))
         (duration_of (durations handlerSettings) (currentMode (snd (tick None clock e))))
         newId hs).
Proof.
  intros Hrun Hc. unfold intervalCallback.
  rewrite (tick_completes None clock e Hrun Hc). cbn [fst snd].
  destruct (autoAdvance (settings e)); cbn [currentMode switchMode set_currentMode
    set_remaining set_remainingAtStart set_isRunning set_sessionStartTime].
  - rewrite mode_after_autoAdvance. reflexivity.
  - reflexivity.
Qed.

(** X13: under [autoAdvance] the interval callback reads the mode after
    the engine has switched.  When a focus session completes, no task is
    credited and the log entry carries the break that follows, with no
    task; when a break completes, the tasks with the active identifier are
    credited and the entry is logged as [focus] with the active task. *)
Theorem interval_reports_next_mode (handlerSettings : TimerSettings)
    (clock clockHandler clockPersist : Z) (newId : string)
    (hs : StorageSchema) (e : Engine) :
  autoAdvance (settings e) = true ->
  isRunning e = true ->
  candidateRemaining clock e <= 0 ->
  exists entry,
    sessionLogs (fst (intervalCallback handlerSettings clock clockHandler clockPersist
                        newId hs e))
    = sessionLogs hs ++ [entry]
    /\ log_mode entry = currentMode (snd (tick None clock e))
    /\ if mode_eqb (currentMode e) focus
       then tasks (fst (intervalCallback handlerSettings clock clockHandler clockPersist
                          newId hs e)) = tasks hs
            /\ mode_eqb (log_mode entry) focus = false
            /\ log_taskId entry = None
       else map task_completed
              (tasks (fst (intervalCallback handlerSettings clock clockHandler clockPersist
                             newId hs e)))
            = map (fun t => task_completed t
                            + if truthy_id (activeTaskId hs) && is_active (activeTaskId hs) t
                              then 1 else 0)
                  (tasks hs)
            /\ log_mode entry = focus
            /\ log_taskId entry = activeTaskId hs.
Proof.
  intros Hauto Hrun Hc.
  rewrite (intervalCallback_completed _ _ _ _ _ _ _ Hrun Hc), Hauto.
  rewrite (tick_completes None clock e Hrun Hc), Hauto. cbn [snd].
  eexists. split; [reflexivity|]. cbn [log_mode]. split; [reflexivity|].
  pose proof (mode_after_autoAdvance e) as Hnext.
  destruct (mode_eqb (currentMode e) focus) eqn:Hm; cbn [negb] in *.
  - split; [reflexivity|]. split; [exact Hnext|reflexivity].
  - split; [|split; [apply mode_eqb_eq, Hnext|reflexivity]].
    unfold updatePersistedTimerState, set_timerState. cbn [tasks].
    rewrite sessionCompleteUpdater_counts. reflexivity.
Qed.

Lemma interval_reports_next_mode_witness :
  exists entry,
    sessionLogs (fst (intervalCallback autoSettings 6000 6000 6000 "log1"
       (mkStorageSchema 1 autoSettings
          [mkTask "t1" "write" None None 0 0 0] (Some "t1") [] None)
       (start 1000 (createPomodoroTimer autoSettings))))
    = [entry]
    /\ log_mode entry = short_break.
Proof.
  destruct (interval_reports_next_mode autoSettings 6000 6000 6000 "log1"
    (mkStorageSchema 1 autoSettings [mkTask "t1" "write" None None 0 0 0] (Some "t1") [] None)
    (start 1000 (createPomodoroTimer autoSettings)) eq_refl eq_refl)
    as (entry & Hlog & Hmode & _).
  - vm_compute. discriminate.
  - exists entry. split; [exact Hlog|exact Hmode].
Defined.

(** X14: without [autoAdvance] the mode read after the [tick] is the mode
    of the session that completed: a completed focus session credits the
    tasks with the active identifier and is logged as [focus] with the
    active task, a completed break credits nothing. *)
Theorem interval_reports_same_mode (handlerSettings : TimerSettings)
    (clock clockHandler clockPersist : Z) (newId : string)
    (hs : StorageSchema) (e : Engine) :
  autoAdvance (settings e) = false ->
  isRunning e = true ->
  candidateRemaining clock e <= 0 ->
  exists entry,
    sessionLogs (fst (intervalCallback handlerSettings clock clockHandler clockPersist
                        newId hs e))
    = sessionLogs hs ++ [entry]
    /\ log_mode entry = currentMode e
    /\ log_taskId entry = (if mode_eqb (currentMode e) focus then activeTaskId hs else None)
    /\ map task_completed
         (tasks (fst (intervalCallback handlerSettings clock clockHandler clockPersist
                        newId hs e)))
       = map (fun t => task_completed t
                       + if mode_eqb (currentMode e) focus
                            && truthy_id (activeTaskId hs) && is_active (activeTaskId hs) t
                         then 1 else 0)
             (tasks hs).
Proof.
  intros Hauto Hrun Hc.
  rewrite (intervalCallback_completed _ _ _ _ _ _ _ Hrun Hc), Hauto.
  rewrite (tick_completes None clock e Hrun Hc), Hauto. cbn [snd].
  eexists. split; [reflexivity|]. cbn [log_mode log_taskId].
  split; [reflexivity|]. split; [reflexivity|].
  unfold updatePersistedTimerState, set_timerState. cbn [tasks].
  rewrite sessionCompleteUpdater_counts. reflexivity.
Qed.

Lemma interval_reports_same_mode_witness :
  map task_completed
    (tasks (fst (intervalCallback defaultSettings 6000 6000 6000 "log1"
       (mkStorageSchema 1 defaultSettings
          [mkTask "t1" "write" None None 0 0 0; mkTask "t2" "read" None None 4 0 0]
          (Some "t1") [] None)
       (start 1000 (createPomodoroTimer defaultSettings)))))
  = [1; 4].
Proof.
  destruct (interval_reports_same_mode defaultSettings 6000 6000 6000 "log1"
    (mkStorageSchema 1 defaultSettings
       [mkTask "t1" "write" None None 0 0 0; mkTask "t2" "read" None None 4 0 0]
       (Some "t1") [] None)
    (start 1000 (createPomodoroTimer defaultSettings)) eq_refl eq_refl)
    as (entry & _ & _ & _ & Htasks).
  - vm_compute. discriminate.
  - exact Htasks.
Defined.

(** ** Settings changed through the hook *)

Lemma hookNewSettings_duration (permission : option NotificationPermission)
    (partial : SettingsObj) (previous : TimerSettings) (m : PomodoroMode) :
  duration_of (durations (hookNewSettings permission partial previous)) m
  = default (duration_of (durations previous) m) (obj_duration partial m).
Proof. destruct m; reflexivity. Qed.

(** X15: the hook's [updateSettings] merges the durations key by key: a
    mode whose duration is present in the partial update takes it, a mode
    whose duration is not present keeps its previous duration; the engine
    receives the merged settings, so the engine's settings and the hook's
    are the same after the call. *)
Theorem hookUpdateSettings_merges_keywise (permission : option NotificationPermission)
    (partial : SettingsObj) (prev : StorageSchema) (e : Engine) (m : PomodoroMode) :
  settings (snd (hookUpdateSettings permission partial prev e))
  = timerSettings (fst (hookUpdateSettings permission partial prev e))
  /\ duration_of (durations (settings (snd (hookUpdateSettings permission partial prev e)))) m
     = match obj_duration partial m with
       | Some d => d
       | None => duration_of (durations (timerSettings prev)) m
       end
  /\ autoAdvance (settings (snd (hookUpdateSettings permission partial prev e)))
     = default (autoAdvance (timerSettings prev)) (obj_autoAdvance partial)
  /\ longBreakInterval (settings (snd (hookUpdateSettings permission partial prev e)))
     = default (longBreakInterval (timerSettings prev)) (obj_longBreakInterval partial).
Proof.
  unfold hookUpdateSettings. cbn [fst snd].
  destruct (updateSettings_is_spread
              (hookNewSettings permission partial (timerSettings prev)) e) as [_ Heq].
  rewrite Heq. split; [reflexivity|].
  rewrite hookNewSettings_duration.
  split; [destruct (obj_duration partial m); reflexivity|].
  split; reflexivity.
Qed.

(** X16: notifications that were off are on after the hook's
    [updateSettings] exactly when the update asks for them and the browser
    has already granted the permission. *)
Theorem notifications_need_permission (permission : option NotificationPermission)
    (partial : SettingsObj) (previous : TimerSettings) :
  notificationsEnabled previous = false ->
  notificationsEnabled (hookNewSettings permission partial previous) = true
  <-> obj_notificationsEnabled partial = Some true /\ permission = Some granted.
Proof.
  intros Hoff. unfold hookNewSettings, resolveNotifications. cbn. rewrite Hoff.
  destruct (obj_notificationsEnabled partial) as [[|]|];
    destruct permission as [[| |]|]; split;
    try discriminate; try (intros [H1 H2]; discriminate); intros; split; reflexivity.
Qed.

Lemma notifications_need_permission_witness :
  notificationsEnabled
    (hookNewSettings (Some undecided)
       (mkSettingsObj None None None None (Some true)) defaultSettings) = true
  <-> Some true = Some true /\ Some undecided = Some granted.
Proof.
  exact (notifications_need_permission (Some undecided)
           (mkSettingsObj None None None None (Some true)) defaultSettings eq_refl).
Defined.

Lemma mode_key_inj (a b : PomodoroMode) : mode_key a = mode_key b -> a = b.
Proof. destruct a, b; cbn; intros H; try reflexivity; discriminate H. Qed.

Lemma setDurationUpdate_duration (current : TimerSettings) (mode m : PomodoroMode)
    (minutes : Z) :
  obj_duration (setDurationUpdate current mode minutes) m
  = Some (if mode_eqb m mode then minutes * 60 else duration_of (durations current) m).
Proof.
  unfold obj_duration, setDurationUpdate. cbn.
  destruct (mode_eqb m mode) eqn:Hm.
  - apply mode_eqb_eq in Hm. subst m. apply lookup_insert_eq.
  - rewrite lookup_insert_ne.
    + apply durations_obj_lookup.
    + intros Hk. apply mode_key_inj in Hk. subst m.
      destruct mode; discriminate Hm.
Qed.

(** X17: [setDuration (mode, minutes)] of the timer card, passed through
    the hook, sets the duration of that mode to [minutes * 60] seconds in
    the engine, gives the other modes the durations of the settings the
    card was rendered with, and keeps the other settings; on a timer that
    is not running the remaining time becomes the full duration of the
    current mode, also when another mode was edited. *)
Theorem setDuration_through_hook (permission : option NotificationPermission)
    (current : TimerSettings) (mode : PomodoroMode) (minutes : Z)
    (prev : StorageSchema) (e : Engine) (m : PomodoroMode) :
  duration_of
    (durations (settings (snd (hookUpdateSettings permission
                                 (setDurationUpdate current mode minutes) prev e)))) m
  = (if mode_eqb m mode then minutes * 60 else duration_of (durations current) m)
  /\ autoAdvance (settings (snd (hookUpdateSettings permission
                                  (setDurationUpdate current mode minutes) prev e)))
     = autoAdvance (timerSettings prev)
  /\ longBreakInterval (settings (snd (hookUpdateSettings permission
                                        (setDurationUpdate current mode minutes) prev e)))
     = longBreakInterval (timerSettings prev)
  /\ notificationsEnabled (settings (snd (hookUpdateSettings permission
                                           (setDurationUpdate current mode minutes) prev e)))
     = notificationsEnabled (timerSettings prev)
  /\ remaining (snd (hookUpdateSettings permission
                       (setDurationUpdate current mode minutes) prev e))
     = if isRunning e then remaining e
       else if mode_eqb (currentMode e) mode then minutes * 60
            else duration_of (durations current) (currentMode e).
Proof.
  unfold hookUpdateSettings. cbn [fst snd].
  destruct (updateSettings_is_spread
              (hookNewSettings permission (setDurationUpdate current mode minutes)
                 (timerSettings prev)) e) as [_ Heq].
  rewrite Heq, updateSettings_remaining, !hookNewSettings_duration,
    !setDurationUpdate_duration.
  repeat split.
Qed.

(** ** Deleting a task *)


(** * The reimplementation of the manual test script against the engine *)

Lemma same_point_tick (e : Engine) (m : Manual.Timer) (n clock : Z) :
  same_point e m ->
  n <> 0 ->
  fst (tick (Some n) clock e) = fst (Manual.tick (Some n) clock m)
  /\ same_point (snd (tick (Some n) clock e)) (snd (Manual.tick (Some n) clock m)).
Proof.
  intros (Hset & Hst & Hrun) Hn.
  destruct e as [st md r run sst ras c], m as [st' md' r' run' sst' c'].
  unfold same_point, state, Manual.state in *. cbn in *.
  injection Hst as -> -> -> ->. subst st'.
  unfold tick, Manual.tick. cbn.
  destruct run'; cbn.
  - destruct (Hrun eq_refl) as (Hsst & [t0 Ht0] & Hras). subst sst' ras. rewrite Ht0. cbn.
    destruct (Z.eqb_spec n 0) as [|_]; [contradiction|].
    destruct (duration_of (durations st) md' - (n - t0) / 1000 <=? 0); cbn.
    + unfold nextMode. cbn.
      destruct (mode_eqb md' focus) eqn:Hm; cbn; rewrite ?Hm;
        destruct (autoAdvance st); cbn; rewrite ?Hm;
        (split; [reflexivity|]); (split; [reflexivity|]);
        (split; [reflexivity|]); intros H; discriminate H.
    + split; [reflexivity|]. split; [reflexivity|]. split; [reflexivity|].
      intros _. split; [reflexivity|]. split; [exists t0; reflexivity|reflexivity].
  - split; [reflexivity|]. split; [reflexivity|]. split; [reflexivity|].
    intros H; discriminate H.
Qed.

Lemma same_point_ticks (nows : list Z) (clock : Z) (e : Engine) (m : Manual.Timer) :
  same_point e m ->
  forallb (fun n => negb (n =? 0)) nows = true ->
  same_point (ticks clock nows e) (Manual.ticks clock nows m).
Proof.
  unfold ticks. revert e m.
  induction nows as [|n nows IH]; intros e m Hsame Hall; cbn in *; [exact Hsame|].
  apply andb_true_iff in Hall as [Hn Hall].
  apply negb_true_iff, Z.eqb_neq in Hn.
  apply IH; [|exact Hall]. apply same_point_tick; assumption.
Qed.

(** X19: on a session started from the full duration (after
    [createPomodoroTimer] and [switchMode]) the reimplementation in the
    manual test script and the engine show the same state after any burst
    of [tick]s whose [now] is not 0. *)
Theorem manual_agrees_on_fresh_session (s : TimerSettings) (md : PomodoroMode)
    (t clock : Z) (nows : list Z) :
  forallb (fun n => negb (n =? 0)) nows = true ->
  state (ticks clock nows (start t (switchMode md (createPomodoroTimer s))))
  = Manual.state
      (Manual.ticks clock nows
         (Manual.start t (Manual.switchMode md (Manual.createPomodoroTimer s)))).
Proof.
  intros Hall.
  apply (same_point_ticks nows clock); [|exact Hall].
  unfold same_point. cbn. split; [reflexivity|]. split; [reflexivity|].
  intros _. split; [reflexivity|]. split; [exists t; reflexivity|reflexivity].
Qed.

Lemma manual_agrees_on_fresh_session_witness :
  state (ticks 0 [2000; 3000; 9000; 9500]
           (start 1000 (switchMode focus (createPomodoroTimer autoSettings))))
  = Manual.state
      (Manual.ticks 0 [2000; 3000; 9000; 9500]
         (Manual.start 1000
            (Manual.switchMode focus (Manual.createPomodoroTimer autoSettings)))).
Proof.
  exact (manual_agrees_on_fresh_session autoSettings focus 1000 0
           [2000; 3000; 9000; 9500] eq_refl).
Defined.

(** X20: the reimplementation counts the time before a pause twice when a
    [tick] came first: after [start] at [t0], a [tick] and a [pause] both
    [k] seconds later, it shows the full duration minus [2k] (floored at
    0), where the engine shows the full duration minus [k]. *)
Theorem manual_pause_counts_twice (s : TimerSettings) (md : PomodoroMode)
    (t0 k clock : Z) :
  0 < k < duration_of (durations s) md ->
  t0 + k * 1000 <> 0 ->
  Manual.remaining
    (Manual.pause (t0 + k * 1000)
       (snd (Manual.tick (Some (t0 + k * 1000)) clock
               (Manual.start t0 (Manual.switchMode md (Manual.createPomodoroTimer s))))))
  = Z.max 0 (duration_of (durations s) md - 2 * k)
  /\ remaining
       (pause (t0 + k * 1000)
          (snd (tick (Some (t0 + k * 1000)) clock
                  (start t0 (switchMode md (createPomodoroTimer s))))))
     = duration_of (durations s) md - k.
Proof.
  intros Hk Hne.
  unfold Manual.pause, Manual.tick, Manual.start, Manual.switchMode,
    Manual.createPomodoroTimer, pause, tick, start, switchMode, createPomodoroTimer.
  cbn.
  destruct (Z.eqb_spec (t0 + k * 1000) 0) as [|_]; [contradiction|].
  rewrite !elapsed_whole_seconds.
  destruct (Z.leb_spec (duration_of (durations s) md - k) 0); [lia|]. cbn.
  rewrite !elapsed_whole_seconds. split; [f_equal; lia|lia].
Qed.

Lemma manual_pause_counts_twice_witness :
  0 < 2 < duration_of (durations defaultSettings) focus
  /\ Manual.remaining
       (Manual.pause (1000 + 2 * 1000)
          (snd (Manual.tick (Some (1000 + 2 * 1000)) 0
                  (Manual.start 1000
                     (Manual.switchMode focus (Manual.createPomodoroTimer defaultSettings))))))
     = Z.max 0 (5 - 2 * 2).
Proof.
  assert (H : 0 < 2 < duration_of (durations defaultSettings) focus) by (cbn; lia).
  split; [exact H|].
  refine (proj1 (manual_pause_counts_twice defaultSettings focus 1000 2 0 H _)).
  lia.
Defined.

(** X21: after a pause the reimplementation starts the mode over: a
    stopped timer with any remaining time, started at [t] and ticked [k]
    seconds later, shows the full duration of its mode minus [k]; the
    engine shows what remained before the start minus [k]. *)
Theorem manual_resume_restarts_mode (m : Manual.Timer) (e : Engine) (t k clock : Z) :
  Manual.isRunning m = false ->
  isRunning e = false ->
  0 <= k ->
  t + k * 1000 <> 0 ->
  (k < duration_of (durations (Manual.settings m)) (Manual.mode m) ->
   Manual.remaining (snd (Manual.tick (Some (t + k * 1000)) clock (Manual.start t m)))
   = duration_of (durations (Manual.settings m)) (Manual.mode m) - k)
  /\ (k < remaining e ->
      remaining (snd (tick (Some (t + k * 1000)) clock (start t e))) = remaining e - k).
Proof.
  intros Hm He Hk Hne. split; intros Hlt.
  - unfold Manual.tick, Manual.start. rewrite Hm. cbn.
    destruct (Z.eqb_spec (t + k * 1000) 0) as [|_]; [contradiction|].
    rewrite elapsed_whole_seconds.
    destruct (Z.leb_spec (duration_of (durations (Manual.settings m)) (Manual.mode m) - k) 0);
      [lia|reflexivity].
  - unfold tick, start. rewrite He. cbn. rewrite elapsed_whole_seconds.
    destruct (Z.leb_spec (remaining e - k) 0); [lia|reflexivity].
Qed.

Lemma manual_resume_restarts_mode_witness :
  Manual.remaining (Manual.pause 4000 (Manual.start 1000
                      (Manual.createPomodoroTimer defaultSettings))) = 2
  /\ Manual.remaining
       (snd (Manual.tick (Some (9000 + 1 * 1000)) 0
          (Manual.start 9000
             (Manual.pause 4000 (Manual.start 1000
                (Manual.createPomodoroTimer defaultSettings)))))) = 5 - 1
  /\ remaining
       (snd (tick (Some (9000 + 1 * 1000)) 0
          (start 9000 (pause 4000 (start 1000 (createPomodoroTimer defaultSettings))))))
     = 2 - 1.
Proof.
  split; [reflexivity|].
  destruct (manual_resume_restarts_mode
    (Manual.pause 4000 (Manual.start 1000 (Manual.createPomodoroTimer defaultSettings)))
    (pause 4000 (start 1000 (createPomodoroTimer defaultSettings)))
    9000 1 0 eq_refl eq_refl) as [H1 H2]; [lia|lia|].
  split; [apply H1; vm_compute; reflexivity|apply H2; vm_compute; reflexivity].
Defined.

(** * The clock face *)

(** X22: for every time from 0 up to 99 minutes 59 seconds [formatTime]
    gives five characters with the colon in the middle, and two different
    times never give the same text. *)
Theorem formatTime_unambiguous (sec : Z) :
  0 <= sec < 6000 ->
  String.length (formatTime sec) = 5%nat
  /\ String.get 2 (formatTime sec) = Some ":"%char
  /\ (forall sec', 0 <= sec' < 6000 -> formatTime sec = formatTime sec' -> sec = sec').
Proof.
  assert (Hall : forallb
            (fun n => Nat.eqb (String.length (formatTime (Z.of_nat n))) 5
                      && match String.get 2 (formatTime (Z.of_nat n)) with
                         | Some c => Ascii.eqb c ":"%char
                         | None => false
                         end
                      && match readTime (formatTime (Z.of_nat n)) with
                         | Some v => v =? Z.of_nat n
                         | None => false
                         end)
            (seq 0 (Z.to_nat 6000)) = true) by (vm_compute; reflexivity).
  assert (Hone : forall z, 0 <= z < 6000 ->
            String.length (formatTime z) = 5%nat
            /\ String.get 2 (formatTime z) = Some ":"%char
            /\ readTime (formatTime z) = Some z).
  { intros z Hz.
    assert (Hin : In (Z.to_nat z) (seq 0 (Z.to_nat 6000))) by (apply in_seq; lia).
    pose proof (proj1 (forallb_forall _ _) Hall (Z.to_nat z) Hin) as H.
    cbv beta in H. rewrite Z2Nat.id in H by lia.
    apply andb_true_iff in H as [H H3]. apply andb_true_iff in H as [H1 H2].
    split; [apply Nat.eqb_eq, H1|]. split.
    - destruct (String.get 2 (formatTime z)) as [c|]; [|discriminate H2].
      apply Ascii.eqb_eq in H2. subst c. reflexivity.
    - destruct (readTime (formatTime z)) as [v|]; [|discriminate H3].
      apply Z.eqb_eq in H3. subst v. reflexivity. }
  intros Hsec. destruct (Hone sec Hsec) as (H1 & H2 & H3).
  split; [exact H1|]. split; [exact H2|].
  intros sec' Hsec' Heq. destruct (Hone sec' Hsec') as (_ & _ & H3').
  rewrite Heq, H3' in H3. injection H3 as H3. symmetry. exact H3.
Qed.

Lemma formatTime_unambiguous_witness :
  0 <= 1500 < 6000 /\ String.length (formatTime 1500) = 5%nat.
Proof.
  assert (H : 0 <= 1500 < 6000) by lia.
  split; [exact H|].
  exact (proj1 (formatTime_unambiguous 1500 H)).
Defined.

Example formatTime_examples :
  formatTime 1500 = "25:00"%string
  /\ formatTime 61 = "01:01"%string
  /\ formatTime 6000 = "100:00"%string
  /\ formatTime (-5) = "-1:-5"%string.
Proof. repeat split. Qed.

(** * Whole seconds over a reload and over later ticks *)

Lemma floor_seconds_split (a b : Z) :
  a / 1000 + b / 1000 <= (a + b) / 1000 <= a / 1000 + b / 1000 + 1.
Proof.
  pose proof (Z.div_mod a 1000 ltac:(lia)) as Ha.
  pose proof (Z.div_mod b 1000 ltac:(lia)) as Hb.
  pose proof (Z.div_mod (a + b) 1000 ltac:(lia)) as Hab.
  pose proof (Z.mod_pos_bound a 1000 ltac:(lia)).
  pose proof (Z.mod_pos_bound b 1000 ltac:(lia)).
  pose proof (Z.mod_pos_bound (a + b) 1000 ltac:(lia)).
  lia.
Qed.

(** X23: a reload costs at most one second.  A running session is ticked
    at [t] without completing, persisted at [t] and restored at [t' >= t];
    the remaining time after the restore is the one the engine itself
    would show at [t'] (the value [pause] computes), or one second more. *)
Theorem reload_costs_at_most_one_second (e e0 : Engine) (t0 t t' clock clock' : Z) :
  isRunning e = true ->
  sessionStartTime e = Some t0 ->
  0 < t ->
  0 < candidateRemaining t e ->
  remaining (pause t' e)
  <= remaining (restoreTimerState
                  (Some (persistedTimerState t (snd (tick (Some t) clock e))))
                  t' clock' e0)
  <= remaining (pause t' e) + 1.
Proof.
  intros Hrun Hs Ht Hc.
  rewrite (tick_counts_down (Some t) clock e t0 Hrun Hs Hc). cbn [snd].
  change (default clock (Some t)) with t.
  unfold candidateRemaining in Hc. rewrite Hs in Hc.
  rewrite restore_running; cbn [set_remaining isRunning remaining currentMode
    completedFocusSessions]; [|exact Hrun|lia].
  unfold pause. rewrite Hrun, Hs. cbn.
  pose proof (floor_seconds_split (t - t0) (t' - t)) as Hsplit.
  replace (t - t0 + (t' - t)) with (t' - t0) in Hsplit by lia.
  lia.
Qed.

Lemma reload_costs_at_most_one_second_witness :
  0 < candidateRemaining 2900 (start 1000 (createPomodoroTimer defaultSettings))
  /\ remaining (pause 4100 (start 1000 (createPomodoroTimer defaultSettings)))
     <= remaining (restoreTimerState
          (Some (persistedTimerState 2900
                   (snd (tick (Some 2900) 0
                           (start 1000 (createPomodoroTimer defaultSettings))))))
          4100 4100 (createPomodoroTimer defaultSettings))
     <= remaining (pause 4100 (start 1000 (createPomodoroTimer defaultSettings))) + 1.
Proof.
  assert (H : 0 < candidateRemaining 2900 (start 1000 (createPomodoroTimer defaultSettings)))
    by (vm_compute; reflexivity).
  split; [exact H|].
  refine (reload_costs_at_most_one_second
    (start 1000 (createPomodoroTimer defaultSettings))
    (createPomodoroTimer defaultSettings) 1000 2900 4100 0 4100 eq_refl eq_refl _ H).
  lia.
Defined.

(** X24: while the session does not complete, a later [tick] never shows
    more time than an earlier one: for [now1 <= now2] the remaining time
    after [tick now1] followed by [tick now2] is at most the remaining time
    after [tick now1]. *)
Theorem countdown_never_rises (e : Engine) (t0 now1 now2 clock : Z) :
  isRunning e = true ->
  sessionStartTime e = Some t0 ->
  now1 <= now2 ->
  0 < candidateRemaining now2 e ->
  fst (tick (Some now2) clock (snd (tick (Some now1) clock e))) = false
  /\ remaining (snd (tick (Some now2) clock (snd (tick (Some now1) clock e))))
     <= remaining (snd (tick (Some now1) clock e)).
Proof.
  intros Hrun Hs Hle Hc2.
  assert (Hmono : (now1 - t0) / 1000 <= (now2 - t0) / 1000)
    by (apply Z.div_le_mono; lia).
  assert (Hc1 : 0 < candidateRemaining now1 e).
  { unfold candidateRemaining in *. rewrite Hs in *. lia. }
  rewrite (tick_counts_down (Some now1) clock e t0 Hrun Hs Hc1). cbn [snd].
  rewrite (tick_set_remaining (Some now2) clock _ t0 e Hrun Hs).
  rewrite (tick_counts_down (Some now2) clock e t0 Hrun Hs Hc2).
  change (default clock (Some now1)) with now1.
  change (default clock (Some now2)) with now2. cbn.
  split; [reflexivity|lia].
Qed.

Lemma countdown_never_rises_witness :
  0 < candidateRemaining 3999 (start 1000 (createPomodoroTimer defaultSettings))
  /\ remaining (snd (tick (Some 3999) 0
        (snd (tick (Some 2000) 0 (start 1000 (createPomodoroTimer defaultSettings))))))
     <= remaining (snd (tick (Some 2000) 0
                          (start 1000 (createPomodoroTimer defaultSettings)))).
Proof.
  assert (H : 0 < candidateRemaining 3999 (start 1000 (createPomodoroTimer defaultSettings)))
    by (vm_compute; reflexivity).
  split; [exact H|].
  refine (proj2 (countdown_never_rises (start 1000 (createPomodoroTimer defaultSettings))
    1000 2000 3999 0 eq_refl eq_refl _ H)).
  lia.
Defined.
